(** * Booking derivation logic of the reservation wizard

    A shallow embedding of the state handlers of the [Booking] page
    component (the reservation wizard): stay length, displayed total,
    number-of-rooms selector, payment split and booking confirmation;
    followed by the operations table of that page, the paging, filters
    and statistics of the guests page, the handlers of the hotels page
    and the bulk operations of the reservations page.

    Conventions of the embedding.
    - A JavaScript [number] is [NaN] or a finite value; finite values are
      kept as exact rationals ([Q]), so arithmetic is the exact arithmetic
      that IEEE doubles approximate.  Infinities are not represented: the
      only division in the modelled code has the constant divisor
      [1000 * 3600 * 24].
    - React state is an explicit record [State]; a handler is a function
      [State -> State] giving the state of the next render.
    - Built-ins of the JavaScript host ([Date] parsing, [parseFloat],
      [toISOString]) are an interface [Host]; the handlers are written
      against the interface, and a reference host is given for evaluation. *)

From Stdlib Require Import ZArith QArith Qround Qminmax Lqa Lia.
From Stdlib Require Import Bool List FinFun String Ascii.
From Stdlib Require Import DecimalString DecimalPos DecimalZ.
Import ListNotations.

Local Open Scope string_scope.
Local Open Scope Z_scope.

(** ** JavaScript numbers *)

Inductive number : Type :=
| NaN : number
| Num : Q -> number.

(** Same-value comparison of two numbers, up to the representation of the
    rational. *)
Definition number_eq (a b : number) : Prop :=
  match a, b with
  | NaN, NaN => True
  | Num p, Num q => (p == q)%Q
  | _, _ => False
  end.

Definition ofZ (z : Z) : number := Num (inject_Z z).

Definition number_sub (a b : number) : number :=
  match a, b with
  | Num p, Num q => Num (p - q)
  | _, _ => NaN
  end.

Definition number_mul (a b : number) : number :=
  match a, b with
  | Num p, Num q => Num (p * q)
  | _, _ => NaN
  end.

(** [a / b] for a non-zero divisor; JavaScript answers an infinity or NaN
    for a zero divisor, which the modelled code never supplies. *)
Definition number_div (a b : number) : number :=
  match a, b with
  | Num p, Num q => if Qeq_bool q 0 then NaN else Num (p / q)
  | _, _ => NaN
  end.

(** [a > b]: false as soon as one side is NaN. *)
Definition number_gt (a b : number) : bool :=
  match a, b with
  | Num p, Num q => negb (Qle_bool p q)
  | _, _ => false
  end.

(** ToBoolean on a number: NaN and zero are falsy. *)
Definition truthy (a : number) : bool :=
  match a with
  | NaN => false
  | Num q => negb (Qeq_bool q 0)
  end.

(** [a || 0] *)
Definition or0 (a : number) : number :=
  if truthy a then a else ofZ 0.

Definition Math_ceil (a : number) : number :=
  match a with
  | NaN => NaN
  | Num q => ofZ (Qceiling q)
  end.

Definition Math_min (a b : number) : number :=
  match a, b with
  | Num p, Num q => Num (if Qle_bool p q then p else q)
  | _, _ => NaN
  end.

(** ToLength, as [Array.from({ length: n }, ...)] applies it: NaN and
    negative values give 0, other values are truncated. *)
Definition ToLength (a : number) : nat :=
  match a with
  | NaN => O
  | Num q => Z.to_nat (Qfloor q)
  end.

(** ToBoolean on a string: only the empty string is falsy. *)
Definition truthy_str (s : string) : bool :=
  match s with
  | EmptyString => false
  | String _ _ => true
  end.

(** [Number.prototype.toString] on an integral value. *)
Definition Number_toString (z : Z) : string :=
  NilZero.string_of_int (Z.to_int z).

(** ** The host interface *)

Class Host : Type := {
  (** [new Date(s).getTime()]: the time value in milliseconds since the
      epoch, NaN for an invalid date. *)
  Date_parse : string -> number;
  (** [parseFloat(s)] *)
  parseFloat : string -> number;
  (** [new Date(t).toISOString()] for a valid time value [t]. *)
  Date_toISOString : Z -> string;
  (** The empty string is not a date. *)
  Date_parse_empty : Date_parse "" = NaN
}.

(** The three clock reads of one confirmation: [Date.now()] for the
    identifier, [Date.now()] for the fallback reservation id, and
    [new Date()] for the creation time. *)
Record Clock : Type := {
  now_id : Z;
  now_resId : Z;
  now_createdAt : Z
}.

(** ** Data model (the interfaces of the page) *)

Inductive BoardType : Type :=
| RoomOnly | BedAndBreakfast | HalfBoard | FullBoard.

Inductive RoomStatus : Type :=
| available | occupied | maintenance.

Inductive PaymentMethod : Type :=
| cash | credit | visa.

Inductive BookingStatus : Type :=
| pending | confirmed | checked_in | cancelled.

Module Hotel.
Record t : Type := mk {
  id : string;
  name : string;
  code : string
}.
End Hotel.

Module Room.
Record t : Type := mk {
  id : string;
  hotelId : string;
  type : string;
  boardType : BoardType;
  description : string;
  rate : number;
  available : bool;
  status : RoomStatus;
  availableCount : option number
}.
End Room.

Module Guest.
Record t : Type := mk {
  fullName : string;
  email : string;
  guestClassification : string;
  travelAgent : string;
  company : string;
  source : string;
  group : string;
  arrival : string;
  departure : string;
  vip : bool;
  nationality : string;
  telephone : string;
  roomNo : string;
  rateCode : string;
  roomRate : number;
  payment : string;
  resId : string;
  profileId : string
}.
End Guest.

Module Payment.
Record t : Type := mk {
  method : PaymentMethod;
  amount : number;
  date : string;
  startDate : option string;
  completionDate : option string;
  amountPaidToday : option number;
  remainingBalance : option number
}.
End Payment.

Module Booking.
Record t : Type := mk {
  id : string;
  resId : string;
  guest : Guest.t;
  room : Room.t;
  numberOfRooms : number;
  payment : Payment.t;
  status : BookingStatus;
  createdAt : string
}.
End Booking.

(** ** Component state

    The [useState] cells of the page that the modelled handlers read or
    write, together with the fetched [hotels] and [rooms].  (The display
    language, the list filters and the loading flag take no part in the
    derivations and are left out.) *)

Record State : Type := mkState {
  selectedHotelId : string;
  selectedRoomId : string;
  numberOfRooms : number;
  arrivalDate : string;
  departureDate : string;
  numberOfNights : number;
  guestData : Guest.t;
  paymentData : Payment.t;
  bookings : list Booking.t;
  hotels : list Hotel.t;
  rooms : list Room.t
}.

Definition setSelectedRoomId (v : string) (st : State) : State :=
  mkState (selectedHotelId st) v (numberOfRooms st) (arrivalDate st)
          (departureDate st) (numberOfNights st) (guestData st)
          (paymentData st) (bookings st) (hotels st) (rooms st).

Definition setNumberOfRooms (v : number) (st : State) : State :=
  mkState (selectedHotelId st) (selectedRoomId st) v (arrivalDate st)
          (departureDate st) (numberOfNights st) (guestData st)
          (paymentData st) (bookings st) (hotels st) (rooms st).

Definition setArrivalDate (v : string) (st : State) : State :=
  mkState (selectedHotelId st) (selectedRoomId st) (numberOfRooms st) v
          (departureDate st) (numberOfNights st) (guestData st)
          (paymentData st) (bookings st) (hotels st) (rooms st).

Definition setDepartureDate (v : string) (st : State) : State :=
  mkState (selectedHotelId st) (selectedRoomId st) (numberOfRooms st)
          (arrivalDate st) v (numberOfNights st) (guestData st)
          (paymentData st) (bookings st) (hotels st) (rooms st).

Definition setNumberOfNights (v : number) (st : State) : State :=
  mkState (selectedHotelId st) (selectedRoomId st) (numberOfRooms st)
          (arrivalDate st) (departureDate st) v (guestData st)
          (paymentData st) (bookings st) (hotels st) (rooms st).

Definition setGuestData (v : Guest.t) (st : State) : State :=
  mkState (selectedHotelId st) (selectedRoomId st) (numberOfRooms st)
          (arrivalDate st) (departureDate st) (numberOfNights st) v
          (paymentData st) (bookings st) (hotels st) (rooms st).

Definition setPaymentData (v : Payment.t) (st : State) : State :=
  mkState (selectedHotelId st) (selectedRoomId st) (numberOfRooms st)
          (arrivalDate st) (departureDate st) (numberOfNights st)
          (guestData st) v (bookings st) (hotels st) (rooms st).

Definition setBookings (v : list Booking.t) (st : State) : State :=
  mkState (selectedHotelId st) (selectedRoomId st) (numberOfRooms st)
          (arrivalDate st) (departureDate st) (numberOfNights st)
          (guestData st) (paymentData st) v (hotels st) (rooms st).

Definition setHotels (v : list Hotel.t) (st : State) : State :=
  mkState (selectedHotelId st) (selectedRoomId st) (numberOfRooms st)
          (arrivalDate st) (departureDate st) (numberOfNights st)
          (guestData st) (paymentData st) (bookings st) v (rooms st).

Definition setRooms (v : list Room.t) (st : State) : State :=
  mkState (selectedHotelId st) (selectedRoomId st) (numberOfRooms st)
          (arrivalDate st) (departureDate st) (numberOfNights st)
          (guestData st) (paymentData st) (bookings st) (hotels st) v.

(** The initial values handed to [useState]. *)
Definition initialGuestData : Guest.t :=
  Guest.mk "Ahmed Mohammed Al-Rashid" "ahmed.alrashid@email.com"
           "Saudi Citizen" "Emirates Travel Agency" "Al-Rashid Trading Co."
           "Online Booking" "Business Group" "2024-01-15" "2024-01-20"
           true "UAE" "+971-50-123-4567" "205" "CORP" (ofZ 250) "credit"
           "RES-2024-001" "PROF-12345".

Definition initialPaymentData : Payment.t :=
  Payment.mk credit (ofZ 1250) "2024-01-15" (Some "2024-01-15")
             (Some "2024-01-25") (Some (ofZ 500)) (Some (ofZ 750)).

Definition initialState : State :=
  mkState "hotel-1" "room-1" (ofZ 1) "2024-01-15" "2024-01-20" (ofZ 5)
          initialGuestData initialPaymentData [] [] [].

(** The mount effect, once the three fetches have answered. *)
Definition fetchData (hotelsData : list Hotel.t) (roomsData : list Room.t)
    (bookingsData : list Booking.t) (st : State) : State :=
  setBookings bookingsData (setRooms roomsData (setHotels hotelsData st)).

(** ** Handlers of the page *)

Definition MS_PER_DAY : number := ofZ (1000 * 3600 * 24).

(** [rooms.filter(room => room.hotelId === selectedHotelId)] *)
Definition getAvailableRooms (st : State) : list Room.t :=
  filter (fun room => String.eqb (Room.hotelId room) (selectedHotelId st))
         (rooms st).

(** [rooms.find(room => room.id === selectedRoomId)] *)
Definition getSelectedRoom (st : State) : option Room.t :=
  find (fun room => String.eqb (Room.id room) (selectedRoomId st)) (rooms st).

(** [hotels.find(hotel => hotel.id === selectedHotelId)] *)
Definition getSelectedHotel (st : State) : option Hotel.t :=
  find (fun hotel => String.eqb (Hotel.id hotel) (selectedHotelId st))
       (hotels st).

(** [room?.availableCount || 0], for a room that may be undefined and a
    count that may be absent. *)
Definition availableCountOr0 (room : option Room.t) : number :=
  match room with
  | Some r =>
      match Room.availableCount r with
      | Some n => or0 n
      | None => ofZ 0
      end
  | None => ofZ 0
  end.

(** [room?.rate || 0] *)
Definition rateOr0 (room : option Room.t) : number :=
  match room with
  | Some r => or0 (Room.rate r)
  | None => ofZ 0
  end.

(** [room.status === 'available' && (room.availableCount || 0) > 0] *)
Definition isSelectable (room : Room.t) : bool :=
  match Room.status room with
  | available => number_gt (availableCountOr0 (Some room)) (ofZ 0)
  | _ => false
  end.

(** Click on a room card: [isSelectable && setSelectedRoomId(room.id)]. *)
Definition onRoomClick (room : Room.t) (st : State) : State :=
  if isSelectable room then setSelectedRoomId (Room.id room) st else st.

(** [Array.from({ length: n }, (_, i) => i + 1)] *)
Definition Array_from_length (n : number) : list Z :=
  map (fun i => Z.of_nat i + 1) (seq 0 (ToLength n)).

(** The option values of the Number-of-Rooms select: a single option [1]
    when no room id is selected, otherwise
    [1 .. Math.min(10, getSelectedRoom()?.availableCount || 0)]. *)
Definition numberOfRoomsOptions (st : State) : list Z :=
  if negb (truthy_str (selectedRoomId st)) then [1]
  else Array_from_length
         (Math_min (ofZ 10) (availableCountOr0 (getSelectedRoom st))).

(** [disabled={!selectedRoomId}] *)
Definition numberOfRoomsDisabled (st : State) : bool :=
  negb (truthy_str (selectedRoomId st)).

(** [onChange={(e) => setNumberOfRooms(parseInt(e.target.value))}], where
    the value of the chosen option is the string of the integer [num] and
    [parseInt] reads [num] back. *)
Definition onNumberOfRoomsChange (num : Z) (st : State) : State :=
  setNumberOfRooms (ofZ num) st.

(** What the select control lets the user do with a wished count: the
    change event fires only for a value among the rendered options of an
    enabled control; any other wish cannot be entered and the state stays
    as it is. *)
Definition requestNumberOfRooms (requested : Z) (st : State) : State :=
  if negb (numberOfRoomsDisabled st)
     && existsb (Z.eqb requested) (numberOfRoomsOptions st)
  then onNumberOfRoomsChange requested st
  else st.

(** The displayed total:
    [(room?.rate || 0) * numberOfNights * numberOfRooms]. *)
Definition computeTotal (rate nights roomCount : number) : number :=
  number_mul (number_mul rate nights) roomCount.

Definition totalPrice (st : State) : number :=
  computeTotal (rateOr0 (getSelectedRoom st)) (numberOfNights st)
               (numberOfRooms st).

Section Handlers.
Context {host : Host}.

(** [calculateNights(arrival, departure)] *)
Definition calculateNights (arrival departure : string) (st : State)
    : State :=
  if truthy_str arrival && truthy_str departure then
    let arrivalTime := Date_parse arrival in
    let departureTime := Date_parse departure in
    let timeDiff := number_sub departureTime arrivalTime in
    let nights := Math_ceil (number_div timeDiff MS_PER_DAY) in
    setNumberOfNights (if number_gt nights (ofZ 0) then nights else ofZ 0) st
  else st.

(** Arrival input:
    [setArrivalDate(v); calculateNights(v, departureDate)]. *)
Definition onArrivalDateChange (v : string) (st : State) : State :=
  calculateNights v (departureDate st) (setArrivalDate v st).

(** Departure input:
    [setDepartureDate(v); calculateNights(arrivalDate, v)]. *)
Definition onDepartureDateChange (v : string) (st : State) : State :=
  calculateNights (arrivalDate st) v (setDepartureDate v st).

(** Alternative-price input:
    [setGuestData({...guestData, roomRate: parseFloat(v) || 0})]. *)
Definition onAlternativePriceChange (v : string) (st : State) : State :=
  let g := guestData st in
  setGuestData
    (Guest.mk (Guest.fullName g) (Guest.email g)
              (Guest.guestClassification g) (Guest.travelAgent g)
              (Guest.company g) (Guest.source g) (Guest.group g)
              (Guest.arrival g) (Guest.departure g) (Guest.vip g)
              (Guest.nationality g) (Guest.telephone g) (Guest.roomNo g)
              (Guest.rateCode g) (or0 (parseFloat v)) (Guest.payment g)
              (Guest.resId g) (Guest.profileId g))
    st.

(** Amount-paid input:
    [setPaymentData({...paymentData, amount: parseFloat(v) || 0})]. *)
Definition onAmountChange (v : string) (st : State) : State :=
  let p := paymentData st in
  setPaymentData
    (Payment.mk (Payment.method p) (or0 (parseFloat v)) (Payment.date p)
                (Payment.startDate p) (Payment.completionDate p)
                (Payment.amountPaidToday p) (Payment.remainingBalance p))
    st.

(** Amount-paid-today input (shown for the credit method). *)
Definition onAmountPaidTodayChange (v : string) (st : State) : State :=
  let p := paymentData st in
  let paidToday := or0 (parseFloat v) in
  let remaining := number_sub (Payment.amount p) paidToday in
  setPaymentData
    (Payment.mk (Payment.method p) (Payment.amount p) (Payment.date p)
                (Payment.startDate p) (Payment.completionDate p)
                (Some paidToday)
                (Some (if number_gt remaining (ofZ 0)
                       then remaining else ofZ 0)))
    st.

(** The object literal of [handleConfirmBooking]. *)
Definition newBooking (clk : Clock) (selectedRoom : Room.t) (st : State)
    : Booking.t :=
  let g := guestData st in
  Booking.mk
    (Number_toString (now_id clk))
    (if truthy_str (Guest.resId g) then Guest.resId g
     else "RES" ++ Number_toString (now_resId clk))
    (Guest.mk (Guest.fullName g) (Guest.email g)
              (Guest.guestClassification g) (Guest.travelAgent g)
              (Guest.company g) (Guest.source g) (Guest.group g)
              (arrivalDate st) (departureDate st) (Guest.vip g)
              (Guest.nationality g) (Guest.telephone g) (Guest.roomNo g)
              (Guest.rateCode g) (Room.rate selectedRoom) (Guest.payment g)
              (Guest.resId g) (Guest.profileId g))
    selectedRoom
    (numberOfRooms st)
    (paymentData st)
    confirmed
    (Date_toISOString (now_createdAt clk)).

(** [handleConfirmBooking()] *)
Definition handleConfirmBooking (clk : Clock) (st : State) : State :=
  match getSelectedRoom st with
  | Some selectedRoom =>
      setBookings (bookings st ++ [newBooking clk selectedRoom st])%list st
  | None => st
  end.

End Handlers.

(** ** A reference host

    Enough of ECMAScript to evaluate the handlers on concrete inputs:
    - dates in the ECMAScript date-time string format, either the
      date-only form [YYYY-MM-DD] or the full UTC form
      [YYYY-MM-DDTHH:mm:ss.sssZ] (both are UTC); every other string is
      taken as an invalid date;
    - [parseFloat] on plain decimal numerals [digits], [digits.digits]
      with an optional sign; every other string is taken as NaN;
    - [toISOString] for every time value. *)

Definition digit_of_ascii (c : ascii) : option Z :=
  let n := Z.of_nat (nat_of_ascii c) in
  if (48 <=? n) && (n <=? 57) then Some (n - 48) else None.

(** The longest prefix of digits: its value (continuing [acc]), how many
    digits were read, and the rest of the string. *)
Fixpoint scan_digits (s : string) (acc : Z) (count : nat)
    : Z * nat * string :=
  match s with
  | EmptyString => (acc, count, s)
  | String c rest =>
      match digit_of_ascii c with
      | Some d => scan_digits rest (10 * acc + d) (S count)
      | None => (acc, count, s)
      end
  end.

(** A string made of exactly [width] digits. *)
Definition fixed_digits (width : nat) (s : string) : option Z :=
  match scan_digits s 0 0 with
  | (v, count, EmptyString) => if Nat.eqb count width then Some v else None
  | _ => None
  end.

Definition isLeapYear (y : Z) : bool :=
  ((y mod 4 =? 0) && negb (y mod 100 =? 0)) || (y mod 400 =? 0).

Definition daysInMonth (y m : Z) : Z :=
  if m =? 2 then (if isLeapYear y then 29 else 28)
  else if (m =? 4) || (m =? 6) || (m =? 9) || (m =? 11) then 30
  else 31.

(** Days from 1970-01-01 to the civil date [y-m-d] of the proleptic
    Gregorian calendar. *)
Definition days_from_civil (y m d : Z) : Z :=
  let y' := if m <=? 2 then y - 1 else y in
  let era := y' / 400 in
  let yoe := y' - era * 400 in
  let mp := if 2 <? m then m - 3 else m + 9 in
  let doy := (153 * mp + 2) / 5 + d - 1 in
  let doe := yoe * 365 + yoe / 4 - yoe / 100 + doy in
  era * 146097 + doe - 719468.

(** The civil date of a day number: the inverse of [days_from_civil]. *)
Definition civil_from_days (z : Z) : Z * Z * Z :=
  let z' := z + 719468 in
  let era := z' / 146097 in
  let doe := z' - era * 146097 in
  let yoe := (doe - doe / 1460 + doe / 36524 - doe / 146096) / 365 in
  let doy := doe - (365 * yoe + yoe / 4 - yoe / 100) in
  let mp := (5 * doy + 2) / 153 in
  let d := doy - (153 * mp + 2) / 5 + 1 in
  let m := if mp <? 10 then mp + 3 else mp - 9 in
  let y := yoe + era * 400 + (if m <=? 2 then 1 else 0) in
  (y, m, d).

Definition parse_date_part (s : string) : option Z :=
  match fixed_digits 4 (substring 0 4 s),
        fixed_digits 2 (substring 5 2 s),
        fixed_digits 2 (substring 8 2 s) with
  | Some y, Some m, Some d =>
      if String.eqb (substring 4 1 s) "-" && String.eqb (substring 7 1 s) "-"
         && (1 <=? m) && (m <=? 12) && (1 <=? d) && (d <=? daysInMonth y m)
      then Some (days_from_civil y m d)
      else None
  | _, _, _ => None
  end.

(** [THH:mm:ss.sssZ], as milliseconds into the day. *)
Definition parse_time_part (s : string) : option Z :=
  match fixed_digits 2 (substring 1 2 s),
        fixed_digits 2 (substring 4 2 s),
        fixed_digits 2 (substring 7 2 s),
        fixed_digits 3 (substring 10 3 s) with
  | Some h, Some mi, Some sec, Some ms =>
      if String.eqb (substring 0 1 s) "T" && String.eqb (substring 3 1 s) ":"
         && String.eqb (substring 6 1 s) ":"
         && String.eqb (substring 9 1 s) "."
         && String.eqb (substring 13 1 s) "Z"
         && (h <=? 23) && (mi <=? 59) && (sec <=? 59)
      then Some (((h * 60 + mi) * 60 + sec) * 1000 + ms)
      else None
  | _, _, _, _ => None
  end.

Definition ref_Date_parse (s : string) : number :=
  if Nat.eqb (String.length s) 10 then
    match parse_date_part s with
    | Some days => ofZ (days * 86400000)
    | None => NaN
    end
  else if Nat.eqb (String.length s) 24 then
    match parse_date_part (substring 0 10 s),
          parse_time_part (substring 10 14 s) with
    | Some days, Some ms => ofZ (days * 86400000 + ms)
    | _, _ => NaN
    end
  else NaN.

Definition ref_parseFloat (s : string) : number :=
  let '(negative, body) :=
    match s with
    | String "-" rest => (true, rest)
    | String "+" rest => (false, rest)
    | _ => (false, s)
    end in
  let sign := if negative then (-1) else 1 in
  match scan_digits body 0 0 with
  | (ip, S _, EmptyString) => ofZ (sign * ip)
  | (ip, S _, String "." frac) =>
      match scan_digits frac 0 0 with
      | (fp, S nf, EmptyString) =>
          let scale := 10 ^ Z.of_nat (S nf) in
          Num (Qred (inject_Z (sign * (ip * scale + fp)) / inject_Z scale))
      | _ => NaN
      end
  | _ => NaN
  end.

(** [z] in decimal, left-padded with zeros to [width] digits. *)
Fixpoint pad_digits (width : nat) (z : Z) : string :=
  match width with
  | O => ""
  | S w =>
      pad_digits w (z / 10)
      ++ String (ascii_of_nat (Z.to_nat (48 + z mod 10))) ""
  end.

Definition ref_Date_toISOString (t : Z) : string :=
  let '(y, m, d) := civil_from_days (t / 86400000) in
  let ms := t mod 86400000 in
  let year :=
    if (0 <=? y) && (y <=? 9999) then pad_digits 4 y
    else if y <? 0 then "-" ++ pad_digits 6 (- y)
    else "+" ++ pad_digits 6 y in
  year ++ "-" ++ pad_digits 2 m ++ "-" ++ pad_digits 2 d
  ++ "T" ++ pad_digits 2 (ms / 3600000)
  ++ ":" ++ pad_digits 2 ((ms / 60000) mod 60)
  ++ ":" ++ pad_digits 2 ((ms / 1000) mod 60)
  ++ "." ++ pad_digits 3 (ms mod 1000) ++ "Z".

Definition reference_host : Host :=
  {| Date_parse := ref_Date_parse;
     parseFloat := ref_parseFloat;
     Date_toISOString := ref_Date_toISOString;
     Date_parse_empty := eq_refl |}.

(** A concrete page for evaluation: the initial state once the fetches
    have answered with one hotel and the rooms below. *)
Definition sampleRoom (id : string) (rate count : Z) : Room.t :=
  Room.mk id "hotel-1" "Deluxe Suite" BedAndBreakfast "Sea view" (ofZ rate)
          true available (Some (ofZ count)).

Definition sampleState (roomsData : list Room.t) : State :=
  fetchData [Hotel.mk "hotel-1" "Grand Plaza" "GP"] roomsData []
            initialState.

Definition sampleClock : Clock :=
  {| now_id := 1705298400250;
     now_resId := 1705298400250;
     now_createdAt := 1705298400251 |}.

(** ** Vocabulary of the statements

    The operations as the specification words them, to be compared with
    the handlers above, and a few predicates used to state the
    properties. *)

(** Nights between two time values: whole days rounded up, zero when the
    difference is not positive or a date is invalid. *)
Definition spec_computeNights (arrival departure : number) : Z :=
  match arrival, departure with
  | Num ta, Num td => Z.max 0 (Qceiling ((td - ta) / inject_Z 86400000))
  | _, _ => 0
  end.

(** [min(requested, availableCount)], floored at 1. *)
Definition spec_clampRoomCount (requested : Z) (availableCount : Q) : Q :=
  Qmax 1 (Qmin (inject_Z requested) availableCount).

(** [max(0, total - paidToday)] *)
Definition spec_remainingBalance (total paidToday : Q) : Q :=
  Qmax 0 (total - paidToday).

(** A pair of time values that is not a forward range: a date is invalid,
    or the departure is not after the arrival. *)
Definition invalid_or_inverted (arrival departure : number) : Prop :=
  match arrival, departure with
  | Num ta, Num td => (td <= ta)%Q
  | _, _ => True
  end.

(** The guest fields that the confirmation copies from the form. *)
Definition same_profile (g g' : Guest.t) : Prop :=
  Guest.fullName g = Guest.fullName g'
  /\ Guest.email g = Guest.email g'
  /\ Guest.guestClassification g = Guest.guestClassification g'
  /\ Guest.travelAgent g = Guest.travelAgent g'
  /\ Guest.company g = Guest.company g'
  /\ Guest.source g = Guest.source g'
  /\ Guest.group g = Guest.group g'
  /\ Guest.vip g = Guest.vip g'
  /\ Guest.nationality g = Guest.nationality g'
  /\ Guest.telephone g = Guest.telephone g'
  /\ Guest.roomNo g = Guest.roomNo g'
  /\ Guest.rateCode g = Guest.rateCode g'
  /\ Guest.payment g = Guest.payment g'
  /\ Guest.resId g = Guest.resId g'
  /\ Guest.profileId g = Guest.profileId g'.


(** ** Further handlers of the booking page *)

Definition setSelectedHotelId (v : string) (st : State) : State :=
  mkState v (selectedRoomId st) (numberOfRooms st) (arrivalDate st)
          (departureDate st) (numberOfNights st) (guestData st)
          (paymentData st) (bookings st) (hotels st) (rooms st).

(** Hotel select: [onChange={(e) => setSelectedHotelId(e.target.value)}]. *)
Definition onHotelChange (v : string) (st : State) : State :=
  setSelectedHotelId v st.


(** The string behind a booking status. *)
Definition BookingStatus_toString (s : BookingStatus) : string :=
  match s with
  | pending => "pending"
  | confirmed => "confirmed"
  | checked_in => "checked-in"
  | cancelled => "cancelled"
  end.

(** [a >= b] and [a <= b] on strings: the lexicographic order of the
    code units. *)
Definition String_ge (a b : string) : bool := String.leb b a.

Definition String_le (a b : string) : bool := String.leb a b.

(** The [dateRangeFilter] cell: [{ start, end }]. *)
Record DateRange : Type := mkDateRange {
  range_start : string;
  range_end : string
}.

(** The predicate of [filteredBookings]. *)
Definition bookingMatches (statusFilter : string)
    (dateRangeFilter : DateRange) (booking : Booking.t) : bool :=
  let statusMatch :=
    negb (truthy_str statusFilter)
    || String.eqb (BookingStatus_toString (Booking.status booking))
                  statusFilter in
  let dateMatch :=
    (negb (truthy_str (range_start dateRangeFilter))
     || String_ge (Guest.arrival (Booking.guest booking))
                  (range_start dateRangeFilter))
    && (negb (truthy_str (range_end dateRangeFilter))
        || String_le (Guest.departure (Booking.guest booking))
                     (range_end dateRangeFilter)) in
  statusMatch && dateMatch.

(** [filteredBookings], the rows of the operations table, for the
    [statusFilter] and [dateRangeFilter] cells of the page. *)
Definition filteredBookings (statusFilter : string)
    (dateRangeFilter : DateRange) (st : State) : list Booking.t :=
  filter (bookingMatches statusFilter dateRangeFilter) (bookings st).

(** ** Paging of a displayed list (guests page, reservations page) *)

(** [l.slice(start, end)] for integral bounds: a negative bound counts
    from the end, and bounds are clamped to the length. *)
Definition Array_slice {A : Type} (start end_ : Z) (l : list A) : list A :=
  let len := Z.of_nat (List.length l) in
  let k := if start <? 0 then Z.max (len + start) 0 else Z.min start len in
  let final := if end_ <? 0 then Z.max (len + end_) 0 else Z.min end_ len in
  firstn (Z.to_nat (final - k)) (skipn (Z.to_nat k) l).

Section Paging.
Variable itemsPerPage : Z.
Variable A : Type.

(** [Math.ceil(displayed.length / itemsPerPage)] *)
Definition totalPages (displayed : list A) : Z :=
  Qceiling (inject_Z (Z.of_nat (List.length displayed))
            / inject_Z itemsPerPage).

(** [displayed.slice((currentPage - 1) * itemsPerPage,
                     currentPage * itemsPerPage)] *)
Definition paginated (currentPage : Z) (displayed : list A) : list A :=
  Array_slice ((currentPage - 1) * itemsPerPage)
              (currentPage * itemsPerPage) displayed.

(** The pagination bar is rendered when [totalPages > 1]. *)
Definition paginationShown (displayed : list A) : bool :=
  1 <? totalPages displayed.

(** Previous: [setCurrentPage(Math.max(1, currentPage - 1))]. *)
Definition onPreviousClick (currentPage : Z) : Z :=
  Z.max 1 (currentPage - 1).

(** Next: [setCurrentPage(Math.min(totalPages, currentPage + 1))]. *)
Definition onNextClick (displayed : list A) (currentPage : Z) : Z :=
  Z.min (totalPages displayed) (currentPage + 1).

(** The numbered buttons:
    [Array.from({ length: Math.min(5, totalPages) }, (_, i) => ...)] with
    [page = i + Math.max(1, currentPage - 2)], the entries with
    [page > totalPages] rendering nothing.  A click on a button stores
    its page. *)
Definition pageButtons (displayed : list A) (currentPage : Z) : list Z :=
  filter (fun page => negb (totalPages displayed <? page))
         (map (fun i => Z.of_nat i + Z.max 1 (currentPage - 2))
              (seq 0 (Z.to_nat (Z.min 5 (totalPages displayed))))).

End Paging.

Arguments totalPages itemsPerPage {A} displayed.
Arguments paginated itemsPerPage {A} currentPage displayed.
Arguments paginationShown itemsPerPage {A} displayed.
Arguments onNextClick itemsPerPage {A} displayed currentPage.
Arguments pageButtons itemsPerPage {A} displayed currentPage.

(** The page numbers [1 .. totalPages]. *)
Definition allPages (itemsPerPage : Z) {A : Type} (displayed : list A)
    : list Z :=
  map (fun i => Z.of_nat i + 1)
      (seq 0 (Z.to_nat (totalPages itemsPerPage displayed))).

(** [a + b] *)
Definition number_add (a b : number) : number :=
  match a, b with
  | Num p, Num q => Num (p + q)
  | _, _ => NaN
  end.

(** [Math.round(a)]: the nearest integer, a tie going up. *)
Definition Math_round (a : number) : number :=
  match a with
  | NaN => NaN
  | Num q => ofZ (Qfloor (q + (1 # 2)))
  end.

(** ** The guests page *)

(** [s.includes(sub)] *)
Fixpoint String_includes (s sub : string) : bool :=
  String.prefix sub s
  || match s with
     | EmptyString => false
     | String _ rest => String_includes rest sub
     end.

(** [Array.from(new Set(l))]: the distinct strings of [l], each at the
    place of its first occurrence. *)
Definition Set_from (l : list string) : list string :=
  fold_left
    (fun set x =>
       if existsb (String.eqb x) set then set else (set ++ [x])%list)
    l [].

Inductive Gender : Type :=
| male | female.

Inductive SmokingPreference : Type :=
| smoking | non_smoking.

Inductive LoyaltyLevel : Type :=
| bronze | silver | gold | platinum.

Definition Gender_toString (g : Gender) : string :=
  match g with
  | male => "male"
  | female => "female"
  end.

Definition LoyaltyLevel_toString (l : LoyaltyLevel) : string :=
  match l with
  | bronze => "bronze"
  | silver => "silver"
  | gold => "gold"
  | platinum => "platinum"
  end.

Module GuestsPage.

Module Preferences.
Record t : Type := mk {
  roomType : string;
  bedType : string;
  smokingPreference : SmokingPreference;
  floorPreference : string;
  specialRequests : list string
}.
End Preferences.

Module LoyaltyProgram.
Record t : Type := mk {
  member : bool;
  level : LoyaltyLevel;
  points : number
}.
End LoyaltyProgram.

Module EmergencyContact.
Record t : Type := mk {
  name : string;
  relationship : string;
  phone : string
}.
End EmergencyContact.

Module Guest.
Record t : Type := mk {
  id : string;
  fullName : string;
  firstName : string;
  lastName : string;
  email : string;
  guestClassification : string;
  telephone : string;
  nationality : string;
  passportNumber : string;
  dateOfBirth : string;
  gender : Gender;
  address : string;
  city : string;
  country : string;
  company : string;
  travelAgent : string;
  source : string;
  group : string;
  vip : bool;
  profileId : string;
  preferences : Preferences.t;
  loyaltyProgram : LoyaltyProgram.t;
  emergencyContact : EmergencyContact.t;
  createdAt : string;
  lastStay : string;
  totalStays : number;
  totalSpent : number;
  notes : string
}.
End Guest.

(** The filter cells of the page. *)
Record Filters : Type := mkFilters {
  searchQuery : string;
  nationalityFilter : string;
  vipFilter : string;
  loyaltyFilter : string;
  genderFilter : string
}.

Definition itemsPerPage : Z := 12.

Section Filter.
(** [String.prototype.toLowerCase] of the host. *)
Variable toLowerCase : string -> string.

(** The predicate of the [.filter] stage of [filteredAndSortedGuests]. *)
Definition guestMatches (f : Filters) (guest : Guest.t) : bool :=
  let searchMatch :=
    negb (truthy_str (searchQuery f))
    || String_includes (toLowerCase (Guest.fullName guest))
                       (toLowerCase (searchQuery f))
    || String_includes (toLowerCase (Guest.email guest))
                       (toLowerCase (searchQuery f))
    || String_includes (Guest.telephone guest) (searchQuery f)
    || String_includes (toLowerCase (Guest.profileId guest))
                       (toLowerCase (searchQuery f)) in
  let nationalityMatch :=
    negb (truthy_str (nationalityFilter f))
    || String.eqb (Guest.nationality guest) (nationalityFilter f) in
  let vipMatch :=
    negb (truthy_str (vipFilter f))
    || (if String.eqb (vipFilter f) "vip" then Guest.vip guest
        else negb (Guest.vip guest)) in
  let loyaltyMatch :=
    negb (truthy_str (loyaltyFilter f))
    || String.eqb
         (LoyaltyLevel_toString
            (LoyaltyProgram.level (Guest.loyaltyProgram guest)))
         (loyaltyFilter f) in
  let genderMatch :=
    negb (truthy_str (genderFilter f))
    || String.eqb (Gender_toString (Guest.gender guest)) (genderFilter f) in
  searchMatch && nationalityMatch && vipMatch && loyaltyMatch && genderMatch.

(** The guests kept by the [.filter] stage, in the order of [guests].
    (The [.sort] stage that follows only reorders them.) *)
Definition filteredGuests (f : Filters) (guests : list Guest.t)
    : list Guest.t :=
  filter (guestMatches f) guests.

End Filter.

(** The options of the nationality select, after the "all" option:
    [Array.from(new Set(guests.map(g => g.nationality)))]. *)
Definition nationalityOptions (guests : list Guest.t) : list string :=
  Set_from (map Guest.nationality guests).

(** [stats.nationalities] *)
Definition stats_nationalities (guests : list Guest.t) : nat :=
  List.length (nationalityOptions guests).

(** [stats.averageStays]: the rounded mean of [totalStays], and 0 for an
    empty guest list. *)
Definition stats_averageStays (guests : list Guest.t) : number :=
  if Nat.ltb 0 (List.length guests)
  then Math_round
         (number_div
            (fold_left (fun sum g => number_add sum (Guest.totalStays g))
                       guests (ofZ 0))
            (ofZ (Z.of_nat (List.length guests))))
  else ofZ 0.

Module SortBy.
Inductive t : Type :=
| name | lastStay | totalStays | totalSpent.
End SortBy.

Module SortOrder.
Inductive t : Type :=
| asc | desc.
End SortOrder.

(** The end of the comparator:
    [sortOrder === 'asc' ? (aValue > bValue ? 1 : -1)
                         : (aValue < bValue ? 1 : -1)]. *)
Definition sortResult (sortOrder : SortOrder.t) (gt lt : bool) : Z :=
  match sortOrder with
  | SortOrder.asc => if gt then 1 else -1
  | SortOrder.desc => if lt then 1 else -1
  end.

Section Sort.
Context {host : Host}.

(** The comparator handed to [.sort]. *)
Definition compareGuests (sortBy : SortBy.t) (sortOrder : SortOrder.t)
    (a b : Guest.t) : Z :=
  match sortBy with
  | SortBy.lastStay =>
      let aValue := Date_parse (Guest.lastStay a) in
      let bValue := Date_parse (Guest.lastStay b) in
      sortResult sortOrder (number_gt aValue bValue)
                 (number_gt bValue aValue)
  | SortBy.totalStays =>
      sortResult sortOrder
                 (number_gt (Guest.totalStays a) (Guest.totalStays b))
                 (number_gt (Guest.totalStays b) (Guest.totalStays a))
  | SortBy.totalSpent =>
      sortResult sortOrder
                 (number_gt (Guest.totalSpent a) (Guest.totalSpent b))
                 (number_gt (Guest.totalSpent b) (Guest.totalSpent a))
  | SortBy.name =>
      sortResult sortOrder
                 (String.ltb (Guest.fullName b) (Guest.fullName a))
                 (String.ltb (Guest.fullName a) (Guest.fullName b))
  end.

End Sort.

(** The value a guest is sorted by, when it is a number. *)
Definition numericKey {host : Host} (sortBy : SortBy.t) (g : Guest.t)
    : option number :=
  match sortBy with
  | SortBy.lastStay => Some (Date_parse (Guest.lastStay g))
  | SortBy.totalStays => Some (Guest.totalStays g)
  | SortBy.totalSpent => Some (Guest.totalSpent g)
  | SortBy.name => None
  end.

(** The guests that the mount effect stores ([sampleGuests]). *)
Definition sampleGuests : list Guest.t :=
  [ Guest.mk "1" "Ahmed Al-Rashid" "Ahmed" "Al-Rashid"
      "ahmed.rashid@email.com" "Saudi Citizen" "+966501234567"
      "Saudi Arabia" "SA123456789" "1985-03-15" male
      "King Fahd Road, Riyadh" "Riyadh" "Saudi Arabia" "Saudi Aramco"
      "Elite Travel" "Corporate" "Business" true "VIP001"
      (Preferences.mk "Suite" "King" non_smoking "High floor"
         ["Late checkout"; "Airport transfer"])
      (LoyaltyProgram.mk true gold (ofZ 15000))
      (EmergencyContact.mk "Fatima Al-Rashid" "Spouse" "+966501234568")
      "2023-01-15" "2024-01-15" (ofZ 12) (ofZ 45000)
      "Prefers room with city view. Regular business traveler.";
    Guest.mk "2" "Sarah Johnson" "Sarah" "Johnson"
      "sarah.johnson@email.com" "Visitor" "+1234567890"
      "United States" "US987654321" "1990-07-22" female
      "123 Main Street, New York" "New York" "United States" "Tech Corp"
      "Global Tours" "Online" "Leisure" false "REG002"
      (Preferences.mk "Deluxe" "Queen" non_smoking "Mid floor"
         ["Extra pillows"; "Room service"])
      (LoyaltyProgram.mk true silver (ofZ 8500))
      (EmergencyContact.mk "Michael Johnson" "Brother" "+1234567891")
      "2023-05-10" "2024-02-10" (ofZ 6) (ofZ 18000)
      "Frequent leisure traveler. Enjoys spa services.";
    Guest.mk "3" "Mohammed Hassan" "Mohammed" "Hassan"
      "mohammed.hassan@email.com" "Resident" "+971501234567"
      "United Arab Emirates" "AE456789123" "1978-11-08" male
      "Sheikh Zayed Road, Dubai" "Dubai" "United Arab Emirates"
      "Emirates Group" "Premium Travel" "Referral" "Business" true "VIP003"
      (Preferences.mk "Presidential Suite" "King" non_smoking "Top floor"
         ["Butler service"; "Private dining"])
      (LoyaltyProgram.mk true platinum (ofZ 25000))
      (EmergencyContact.mk "Aisha Hassan" "Wife" "+971501234568")
      "2022-08-20" "2024-01-28" (ofZ 18) (ofZ 75000)
      "VIP guest. Requires special attention and personalized service." ].

End GuestsPage.

(** The filter cells with the VIP filter set to [v]:
    [setVipFilter(v)]. *)
Definition withVipFilter (f : GuestsPage.Filters) (v : string)
    : GuestsPage.Filters :=
  GuestsPage.mkFilters
    (GuestsPage.searchQuery f) (GuestsPage.nationalityFilter f) v
    (GuestsPage.loyaltyFilter f) (GuestsPage.genderFilter f).

(** ** The hotels page ([AddHotel]) *)

(** [s.split(c)[0]]: the part of [s] before the first [c]. *)
Fixpoint before_char (c : ascii) (s : string) : string :=
  match s with
  | EmptyString => EmptyString
  | String a rest =>
      if Ascii.eqb a c then EmptyString else String a (before_char c rest)
  end.

(** [ids.includes(id)] on an array of strings. *)
Definition Array_includes (ids : list string) (id : string) : bool :=
  existsb (String.eqb id) ids.

Module AddHotel.

Module Hotel.
Record t : Type := mk {
  id : string;
  name : string;
  code : string;
  altName : string;
  createdAt : string
}.
End Hotel.

Record State : Type := mkState {
  hotelName : string;
  hotelCode : string;
  altHotelName : string;
  nameFilter : string;
  codeFilter : string;
  selectedHotels : list string;
  selectedHotelDetails : option Hotel.t;
  hotels : list Hotel.t
}.

Definition initialState : State :=
  mkState "" "" "" "" "" [] None
    [ Hotel.mk "1" "Grand Palace Hotel" "GPH001" "فندق القصر الكبير"
               "2024-01-15";
      Hotel.mk "2" "Ocean View Resort" "OVR002" "منتجع إطلالة المحيط"
               "2024-01-20";
      Hotel.mk "3" "Mountain Lodge" "ML003" "نزل الجبل" "2024-01-25";
      Hotel.mk "4" "City Center Hotel" "CCH004" "فندق وسط المدينة"
               "2024-01-30" ].

Definition setSelectedHotels (v : list string) (st : State) : State :=
  mkState (hotelName st) (hotelCode st) (altHotelName st) (nameFilter st)
          (codeFilter st) v (selectedHotelDetails st) (hotels st).

Definition setSelectedHotelDetails (v : option Hotel.t) (st : State)
    : State :=
  mkState (hotelName st) (hotelCode st) (altHotelName st) (nameFilter st)
          (codeFilter st) (selectedHotels st) v (hotels st).

Definition setHotels (v : list Hotel.t) (st : State) : State :=
  mkState (hotelName st) (hotelCode st) (altHotelName st) (nameFilter st)
          (codeFilter st) (selectedHotels st) (selectedHotelDetails st) v.

Section Handlers.
(** [String.prototype.toLowerCase] of the host. *)
Variable toLowerCase : string -> string.
Context {host : Host}.

(** [filteredHotels] *)
Definition filteredHotels (st : State) : list Hotel.t :=
  filter
    (fun hotel =>
       let nameMatch :=
         String.eqb (nameFilter st) ""
         || String_includes (toLowerCase (Hotel.name hotel))
                            (toLowerCase (nameFilter st))
         || String_includes (toLowerCase (Hotel.altName hotel))
                            (toLowerCase (nameFilter st)) in
       let codeMatch :=
         String.eqb (codeFilter st) ""
         || String_includes (toLowerCase (Hotel.code hotel))
                            (toLowerCase (codeFilter st)) in
       nameMatch && codeMatch)
    (hotels st).

(** [handleAddHotel], with the readings of [Date.now()] and of
    [new Date()] taken by the submit. *)
Definition handleAddHotel (now today : Z) (st : State) : State :=
  if truthy_str (hotelName st) && truthy_str (hotelCode st)
     && truthy_str (altHotelName st)
  then
    let newHotel :=
      Hotel.mk (Number_toString now) (hotelName st) (hotelCode st)
               (altHotelName st)
               (before_char "T" (Date_toISOString today)) in
    mkState "" "" "" (nameFilter st) (codeFilter st) (selectedHotels st)
            (selectedHotelDetails st) (hotels st ++ [newHotel])%list
  else st.

(** [handleDeleteHotel(id)] *)
Definition handleDeleteHotel (id : string) (st : State) : State :=
  setSelectedHotels
    (filter (fun selectedId => negb (String.eqb selectedId id))
            (selectedHotels st))
    (setHotels
       (filter (fun hotel => negb (String.eqb (Hotel.id hotel) id))
               (hotels st))
       st).

(** [handleViewHotel(id)] *)
Definition handleViewHotel (id : string) (st : State) : State :=
  setSelectedHotelDetails
    (find (fun h => String.eqb (Hotel.id h) id) (hotels st)) st.

(** The Delete button of the details dialog:
    [handleDeleteHotel(selectedHotelDetails.id);
     setSelectedHotelDetails(null)]. *)
Definition onDetailsDelete (st : State) : State :=
  match selectedHotelDetails st with
  | Some h => setSelectedHotelDetails None (handleDeleteHotel (Hotel.id h) st)
  | None => st
  end.

(** [handleSelectHotel(id)] *)
Definition handleSelectHotel (id : string) (st : State) : State :=
  let prev := selectedHotels st in
  setSelectedHotels
    (if Array_includes prev id
     then filter (fun selectedId => negb (String.eqb selectedId id)) prev
     else (prev ++ [id])%list)
    st.

(** [handleSelectAllHotels()] *)
Definition handleSelectAllHotels (st : State) : State :=
  if Nat.eqb (List.length (selectedHotels st))
             (List.length (filteredHotels st))
  then setSelectedHotels [] st
  else setSelectedHotels (map Hotel.id (filteredHotels st)) st.

(** [handleDeleteSelected()] *)
Definition handleDeleteSelected (st : State) : State :=
  setSelectedHotels []
    (setHotels
       (filter (fun hotel =>
                  negb (Array_includes (selectedHotels st) (Hotel.id hotel)))
               (hotels st))
       st).

(** [handleDeleteAll()] *)
Definition handleDeleteAll (st : State) : State :=
  setSelectedHotels [] (setHotels [] st).

End Handlers.

(** Every selected id is the id of a listed hotel. *)
Definition selection_valid (st : State) : Prop :=
  incl (selectedHotels st) (map Hotel.id (hotels st)).

End AddHotel.

(** ** The reservations page *)

Module Reservations.

Module Status.
Inductive t : Type :=
| pending | confirmed | checked_in | checked_out | cancelled.
End Status.

Definition Status_eqb (a b : Status.t) : bool :=
  match a, b with
  | Status.pending, Status.pending
  | Status.confirmed, Status.confirmed
  | Status.checked_in, Status.checked_in
  | Status.checked_out, Status.checked_out
  | Status.cancelled, Status.cancelled => true
  | _, _ => false
  end.

Module Room.
Record t : Type := mk {
  id : string;
  hotelId : string;
  type : string;
  boardType : BoardType;
  description : string;
  rate : number;
  available : bool;
  status : RoomStatus
}.
End Room.

Module Booking.
Record t : Type := mk {
  id : string;
  resId : string;
  guest : Guest.t;
  room : Room.t;
  payment : Payment.t;
  status : Status.t;
  createdAt : string
}.
End Booking.

(** The cells read and written by the bulk operations. *)
Record State : Type := mkState {
  bookings : list Booking.t;
  selectedBookings : list string
}.

Definition itemsPerPage : Z := 10.

(** [{ ...booking, status: newStatus }] *)
Definition withStatus (booking : Booking.t) (newStatus : Status.t)
    : Booking.t :=
  Booking.mk (Booking.id booking) (Booking.resId booking)
             (Booking.guest booking) (Booking.room booking)
             (Booking.payment booking) newStatus
             (Booking.createdAt booking).

(** [handleBulkStatusChange(newStatus)]; the page calls it with
    ['confirmed'] and ['cancelled']. *)
Definition handleBulkStatusChange (newStatus : Status.t) (st : State)
    : State :=
  mkState
    (map (fun booking =>
            if Array_includes (selectedBookings st) (Booking.id booking)
            then withStatus booking newStatus
            else booking)
         (bookings st))
    [].

(** The checkbox of a row: checked adds the id at the end, unchecked
    removes it. *)
Definition onRowCheck (checked : bool) (id : string) (st : State) : State :=
  mkState (bookings st)
          (if checked then (selectedBookings st ++ [id])%list
           else filter (fun x => negb (String.eqb x id))
                       (selectedBookings st)).

(** The checkbox of the table header, for the rows of the current page:
    checked selects the ids of the page, unchecked clears the
    selection. *)
Definition onHeaderCheck (checked : bool) (paginatedBookings : list Booking.t)
    (st : State) : State :=
  mkState (bookings st)
          (if checked then map Booking.id paginatedBookings else []).

(** [bookings.filter(b => b.status === s).length] *)
Definition stats_count (s : Status.t) (st : State) : nat :=
  List.length
    (filter (fun b => Status_eqb (Booking.status b) s) (bookings st)).

(** [stats.total] *)
Definition stats_total (st : State) : nat := List.length (bookings st).

(** [stats.totalRevenue]:
    [bookings.reduce((sum, b) => sum + b.payment.amount, 0)]. *)
Definition stats_totalRevenue (st : State) : number :=
  fold_left (fun sum b => number_add sum (Payment.amount (Booking.payment b)))
            (bookings st) (ofZ 0).

(** [stats.pendingPayments]:
    [bookings.reduce((sum, b) =>
       sum + (b.payment.remainingBalance || 0), 0)]. *)
Definition stats_pendingPayments (st : State) : number :=
  fold_left
    (fun sum b =>
       number_add sum
         (match Payment.remainingBalance (Booking.payment b) with
          | Some n => or0 n
          | None => ofZ 0
          end))
    (bookings st) (ofZ 0).

End Reservations.

(** Two reservations for evaluation. *)
Definition sampleReservation (id : string) (status : Reservations.Status.t)
    : Reservations.Booking.t :=
  Reservations.Booking.mk id ("RES-" ++ id) initialGuestData
    (Reservations.Room.mk "room-1" "hotel-1" "Deluxe Suite" BedAndBreakfast
       "Sea view" (ofZ 250) true available)
    initialPaymentData status "2024-01-15T06:00:00.251Z".

Definition sampleReservations : Reservations.State :=
  Reservations.mkState
    [sampleReservation "b1" Reservations.Status.pending;
     sampleReservation "b2" Reservations.Status.confirmed]
    ["b1"].

(** A lower-casing of the ASCII letters, for evaluation. *)
Fixpoint ascii_toLowerCase (s : string) : string :=
  match s with
  | EmptyString => EmptyString
  | String c rest =>
      let n := nat_of_ascii c in
      String (if (Nat.leb 65 n && Nat.leb n 90)%bool
              then ascii_of_nat (n + 32) else c)
             (ascii_toLowerCase rest)
  end.

(** * Properties *)

(** ** Numbers *)

Lemma number_gt_Num (p q : Q) :
  number_gt (Num p) (Num q) = true <-> (q < p)%Q.
Proof.
  unfold number_gt. rewrite negb_true_iff.
  split; intro H.
  - destruct (Qlt_le_dec q p) as [Hlt | Hle]; [exact Hlt |].
    apply Qle_bool_iff in Hle. congruence.
  - destruct (Qle_bool p q) eqn:E; [| reflexivity].
    apply Qle_bool_iff in E. exfalso. apply (Qlt_not_le _ _ H E).
Qed.

Lemma number_gt_Num_false (p q : Q) :
  number_gt (Num p) (Num q) = false <-> (p <= q)%Q.
Proof.
  unfold number_gt. rewrite negb_false_iff. apply Qle_bool_iff.
Qed.

Lemma number_gt_ofZ (a b : Z) : number_gt (ofZ a) (ofZ b) = (b <? a).
Proof.
  unfold ofZ. destruct (b <? a) eqn:E.
  - apply number_gt_Num. rewrite <- Zlt_Qlt. now apply Z.ltb_lt.
  - apply number_gt_Num_false. rewrite <- Zle_Qle. now apply Z.ltb_ge.
Qed.

Lemma or0_finite (a : number) : exists q, or0 a = Num q.
Proof.
  unfold or0. destruct a as [| q]; simpl.
  - now exists (inject_Z 0).
  - destruct (Qeq_bool q 0); simpl; [now exists (inject_Z 0) | now exists q].
Qed.

Lemma or0_Num_eq (q : Q) : number_eq (or0 (Num q)) (Num q).
Proof.
  unfold or0. simpl. destruct (Qeq_bool q 0) eqn:E; simpl.
  - apply Qeq_bool_iff in E. now rewrite E.
  - reflexivity.
Qed.

(** ** Stay length *)

Lemma ceil_days_bounds (x : Q) :
  let c := Qceiling (x / inject_Z 86400000) in
  (inject_Z (c - 1) * inject_Z 86400000 < x
   /\ x <= inject_Z c * inject_Z 86400000)%Q.
Proof.
  intro c.
  assert (Hpos : (0 < inject_Z 86400000)%Q) by reflexivity.
  assert (Heq : (x == x / inject_Z 86400000 * inject_Z 86400000)%Q).
  { field. }
  pose proof (Qceiling_lt (x / inject_Z 86400000)) as Hlo.
  pose proof (Qle_ceiling (x / inject_Z 86400000)) as Hhi.
  fold c in Hlo, Hhi.
  split.
  - apply Qlt_le_trans
      with (y := (x / inject_Z 86400000 * inject_Z 86400000)%Q).
    + apply Qmult_lt_compat_r; assumption.
    + rewrite <- Heq. apply Qle_refl.
  - apply Qle_trans
      with (y := (x / inject_Z 86400000 * inject_Z 86400000)%Q).
    + rewrite <- Heq. apply Qle_refl.
    + apply Qmult_le_compat_r; [assumption | now apply Qlt_le_weak].
Qed.

Lemma truthy_str_true (s : string) : truthy_str s = true <-> s <> "".
Proof.
  destruct s; simpl; split; intro H; congruence.
Qed.

Section StayLength.
Context {host : Host}.

Lemma parseable_nonempty (s : string) (t : Q) :
  Date_parse s = Num t -> truthy_str s = true.
Proof.
  destruct s; [| reflexivity].
  rewrite Date_parse_empty. discriminate.
Qed.

(** The handler against the specification's function: with both strings
    non-empty the stored nights become the specified value, otherwise
    the state is untouched. *)
Lemma calculateNights_unfold (arrival departure : string) (st : State) :
  calculateNights arrival departure st =
  if truthy_str arrival && truthy_str departure
  then setNumberOfNights
         (ofZ (spec_computeNights (Date_parse arrival)
                                  (Date_parse departure))) st
  else st.
Proof.
  unfold calculateNights.
  destruct (truthy_str arrival && truthy_str departure); [| reflexivity].
  f_equal.
  destruct (Date_parse arrival) as [| ta], (Date_parse departure) as [| td];
    try reflexivity.
  unfold spec_computeNights, MS_PER_DAY, number_sub, number_div.
  change (ofZ (1000 * 3600 * 24)) with (Num (inject_Z 86400000)).
  cbv iota.
  change (Qeq_bool (inject_Z 86400000) 0) with false.
  cbv iota. unfold Math_ceil.
  set (c := Qceiling ((td - ta) / inject_Z 86400000)).
  rewrite number_gt_ofZ.
  destruct (0 <? c) eqn:E.
  - apply Z.ltb_lt in E. now rewrite Z.max_r by lia.
  - apply Z.ltb_ge in E. now rewrite Z.max_l by lia.
Qed.

Lemma numberOfNights_calculateNights (arrival departure : string)
    (st : State) :
  truthy_str arrival && truthy_str departure = true ->
  numberOfNights (calculateNights arrival departure st)
  = ofZ (spec_computeNights (Date_parse arrival) (Date_parse departure)).
Proof.
  intro H. rewrite calculateNights_unfold, H. reflexivity.
Qed.

Lemma calculateNights_empty (arrival departure : string) (st : State) :
  truthy_str arrival && truthy_str departure = false ->
  calculateNights arrival departure st = st.
Proof.
  intro H. rewrite calculateNights_unfold, H. reflexivity.
Qed.

(** The specified nights, characterised without the rounding function. *)
Lemma spec_computeNights_bounds (ta td : Q) :
  let n := spec_computeNights (Num ta) (Num td) in
  0 <= n
  /\ ((td - ta <= 0)%Q -> n = 0)
  /\ ((0 < td - ta)%Q ->
      (inject_Z (n - 1) * inject_Z 86400000 < td - ta)%Q
      /\ (td - ta <= inject_Z n * inject_Z 86400000)%Q)
  /\ ((0 < td - ta)%Q -> (td - ta <= inject_Z 86400000)%Q -> n = 1).
Proof.
  intro n. unfold spec_computeNights in n.
  destruct (ceil_days_bounds (td - ta)) as [Hlo Hhi].
  set (c := Qceiling ((td - ta) / inject_Z 86400000)) in *.
  assert (Hday : (0 < inject_Z 86400000)%Q) by reflexivity.
  assert (Hnonpos : (td - ta <= 0)%Q -> c <= 0).
  { intro H.
    destruct (Z_lt_le_dec 0 c) as [Hc | Hc]; [exfalso | exact Hc].
    assert (H1 : (0 <= inject_Z (c - 1) * inject_Z 86400000)%Q).
    { apply Qmult_le_0_compat.
      - change 0%Q with (inject_Z 0). rewrite <- Zle_Qle. lia.
      - now apply Qlt_le_weak. }
    apply (Qlt_not_le _ _ Hlo). now apply Qle_trans with (y := 0%Q). }
  assert (Hpos : (0 < td - ta)%Q -> 1 <= c).
  { intro H.
    destruct (Z_lt_le_dec 0 c) as [Hc | Hc]; [lia | exfalso].
    assert (H1 : (inject_Z c * inject_Z 86400000 <= 0)%Q).
    { setoid_replace 0%Q with (0 * inject_Z 86400000)%Q by ring.
      apply Qmult_le_compat_r; [| now apply Qlt_le_weak].
      change 0%Q with (inject_Z 0). now rewrite <- Zle_Qle. }
    apply (Qlt_not_le _ _ H). now apply Qle_trans with (y := (inject_Z c * inject_Z 86400000)%Q). }
  repeat split.
  - subst n. lia.
  - intro H. subst n. specialize (Hnonpos H). lia.
  - specialize (Hpos H). subst n. now rewrite Z.max_r by lia.
  - specialize (Hpos H). subst n. now rewrite Z.max_r by lia.
  - intros H H1. specialize (Hpos H). subst n. rewrite Z.max_r by lia.
    destruct (Z_lt_le_dec 1 c) as [Hc | Hc]; [exfalso | lia].
    assert (H2 : (inject_Z 86400000 <= inject_Z (c - 1) * inject_Z 86400000)%Q).
    { setoid_replace (inject_Z 86400000) with (1 * inject_Z 86400000)%Q
        at 1 by ring.
      apply Qmult_le_compat_r; [| now apply Qlt_le_weak].
      change 1%Q with (inject_Z 1). rewrite <- Zle_Qle. lia. }
    apply (Qlt_not_le _ _ Hlo).
    now apply Qle_trans with (y := inject_Z 86400000).
Qed.

(** C1.  For every pair of parseable arrival and departure dates,
    [calculateNights] stores the difference in days rounded up to the
    next whole day and clamped at zero: the stored value is an integer
    [n >= 0]; [n = 0] when the departure is not after the arrival; for a
    positive difference [n] is the least number of whole days covering
    it; and [n = 1] when the difference is more than zero and at most one
    day. *)
Theorem calculateNights_rounds_up (arrival departure : string)
    (ta td : Q) (st : State) :
  Date_parse arrival = Num ta ->
  Date_parse departure = Num td ->
  exists n : Z,
    numberOfNights (calculateNights arrival departure st) = ofZ n
    /\ n = spec_computeNights (Num ta) (Num td)
    /\ 0 <= n
    /\ ((td - ta <= 0)%Q -> n = 0)
    /\ ((0 < td - ta)%Q ->
        (inject_Z (n - 1) * inject_Z 86400000 < td - ta)%Q
        /\ (td - ta <= inject_Z n * inject_Z 86400000)%Q)
    /\ ((0 < td - ta)%Q -> (td - ta <= inject_Z 86400000)%Q -> n = 1).
Proof.
  intros Ha Hd.
  exists (spec_computeNights (Num ta) (Num td)).
  split; [| split; [reflexivity | apply spec_computeNights_bounds]].
  rewrite numberOfNights_calculateNights.
  - now rewrite Ha, Hd.
  - rewrite (parseable_nonempty _ _ Ha), (parseable_nonempty _ _ Hd).
    reflexivity.
Qed.

End StayLength.

Lemma spec_computeNights_invalid_or_inverted (a d : number) :
  invalid_or_inverted a d -> spec_computeNights a d = 0.
Proof.
  destruct a as [| ta], d as [| td]; try reflexivity.
  simpl invalid_or_inverted. intro H.
  apply (spec_computeNights_bounds ta td). lra.
Qed.

Section DateInputs.
Context {host : Host}.

(** C5 (amended).  A change of the arrival or of the departure input
    stores the new string and never fails.  When the new pair of strings
    has both members non-empty, the stored nights are replaced by the
    recomputed value, which is 0 for an unparseable date and for an
    inverted or empty range.  When one of the two strings is empty, the
    stored nights are left as they were. *)
Theorem date_change_recomputes_nights (v : string) (st : State) :
  let sa := onArrivalDateChange v st in
  let sd := onDepartureDateChange v st in
  arrivalDate sa = v
  /\ departureDate sd = v
  /\ (v <> "" -> departureDate st <> "" ->
      numberOfNights sa
      = ofZ (spec_computeNights (Date_parse v)
                                (Date_parse (departureDate st)))
      /\ (invalid_or_inverted (Date_parse v) (Date_parse (departureDate st))
          -> numberOfNights sa = ofZ 0))
  /\ (v <> "" -> arrivalDate st <> "" ->
      numberOfNights sd
      = ofZ (spec_computeNights (Date_parse (arrivalDate st))
                                (Date_parse v))
      /\ (invalid_or_inverted (Date_parse (arrivalDate st)) (Date_parse v)
          -> numberOfNights sd = ofZ 0))
  /\ (v = "" \/ departureDate st = "" ->
      numberOfNights sa = numberOfNights st)
  /\ (v = "" \/ arrivalDate st = "" ->
      numberOfNights sd = numberOfNights st).
Proof.
  intros sa sd. subst sa sd.
  unfold onArrivalDateChange, onDepartureDateChange.
  rewrite !calculateNights_unfold.
  split; [| split; [| split; [| split; [| split]]]].
  - destruct (truthy_str v && truthy_str (departureDate st)); reflexivity.
  - destruct (truthy_str (arrivalDate st) && truthy_str v); reflexivity.
  - intros Hv Hd. apply truthy_str_true in Hv, Hd.
    change (departureDate (setArrivalDate v st)) with (departureDate st).
    rewrite Hv, Hd. split; [reflexivity |].
    intro Hbad. cbn [andb].
    rewrite (spec_computeNights_invalid_or_inverted _ _ Hbad). reflexivity.
  - intros Hv Ha. apply truthy_str_true in Hv, Ha.
    change (arrivalDate (setDepartureDate v st)) with (arrivalDate st).
    rewrite Hv, Ha. split; [reflexivity |].
    intro Hbad. cbn [andb].
    rewrite (spec_computeNights_invalid_or_inverted _ _ Hbad). reflexivity.
  - change (departureDate (setArrivalDate v st)) with (departureDate st).
    intros [-> | ->]; [reflexivity |].
    rewrite andb_false_r. reflexivity.
  - change (arrivalDate (setDepartureDate v st)) with (arrivalDate st).
    intros [-> | ->]; [| reflexivity].
    rewrite andb_false_r. reflexivity.
Qed.

End DateInputs.

(** ** Payment split *)

Section PaymentSplit.
Context {host : Host}.

(** The stored split in all cases: the paid amount is the parsed input
    with NaN replaced by 0, and the balance is the positive part of
    [amount - paidToday] (0 when that difference is NaN). *)
Lemma onAmountPaidTodayChange_stored (v : string) (st : State) :
  let st' := onAmountPaidTodayChange v st in
  exists paidToday : Q,
    or0 (parseFloat v) = Num paidToday
    /\ Payment.amountPaidToday (paymentData st') = Some (Num paidToday)
    /\ Payment.remainingBalance (paymentData st')
       = Some (match Payment.amount (paymentData st) with
               | NaN => ofZ 0
               | Num total =>
                   if Qle_bool (total - paidToday) 0 then ofZ 0
                   else Num (total - paidToday)
               end).
Proof.
  intro st'. subst st'.
  destruct (or0_finite (parseFloat v)) as [paid Hpaid].
  exists paid. unfold onAmountPaidTodayChange. cbn [paymentData setPaymentData
    Payment.amountPaidToday Payment.remainingBalance].
  rewrite Hpaid.
  split; [reflexivity | split; [reflexivity |]].
  destruct (Payment.amount (paymentData st)) as [| total]; [reflexivity |].
  unfold number_sub, number_gt, ofZ.
  change (inject_Z 0) with 0%Q.
  destruct (Qle_bool (total - paid) 0); reflexivity.
Qed.

(** C2.  For every total amount and every input of the paid-today field,
    the handler stores [remainingBalance = max(0, total - paidToday)]:
    the stored balance is never negative, and it is exactly 0 whenever
    [paidToday >= total]. *)
Theorem amountPaidToday_remainingBalance (v : string) (st : State)
    (total : Q) :
  Payment.amount (paymentData st) = Num total ->
  let st' := onAmountPaidTodayChange v st in
  exists paidToday r : Q,
    or0 (parseFloat v) = Num paidToday
    /\ Payment.amountPaidToday (paymentData st') = Some (Num paidToday)
    /\ Payment.remainingBalance (paymentData st') = Some (Num r)
    /\ (r == spec_remainingBalance total paidToday)%Q
    /\ (0 <= r)%Q
    /\ ((total <= paidToday)%Q ->
        Payment.remainingBalance (paymentData st') = Some (ofZ 0)).
Proof.
  intros Hamount st'.
  destruct (onAmountPaidTodayChange_stored v st)
    as (paid & Hpaid & Hstored & Hbal).
  fold st' in Hstored, Hbal. rewrite Hamount in Hbal.
  unfold spec_remainingBalance.
  destruct (Qle_bool (total - paid) 0) eqn:E.
  - apply Qle_bool_iff in E.
    exists paid, (inject_Z 0).
    split; [exact Hpaid | split; [exact Hstored | split; [exact Hbal |]]].
    split; [| split].
    + rewrite Q.max_l; [reflexivity | exact E].
    + apply Qle_refl.
    + intros _. exact Hbal.
  - assert (Hpos : (0 < total - paid)%Q).
    { destruct (Qlt_le_dec 0 (total - paid)) as [Hlt | Hle]; [exact Hlt |].
      apply Qle_bool_iff in Hle. congruence. }
    exists paid, (total - paid)%Q.
    split; [exact Hpaid | split; [exact Hstored | split; [exact Hbal |]]].
    split; [| split].
    + rewrite Q.max_r; [reflexivity | lra].
    + lra.
    + intro H. lra.
Qed.

(** Whatever the stored amount (NaN included), the stored balance is a
    finite number that is not negative. *)
Lemma remainingBalance_nonnegative (v : string) (st : State) :
  exists r : Q,
    Payment.remainingBalance (paymentData (onAmountPaidTodayChange v st))
    = Some (Num r) /\ (0 <= r)%Q.
Proof.
  destruct (onAmountPaidTodayChange_stored v st) as (paid & _ & _ & Hbal).
  rewrite Hbal.
  destruct (Payment.amount (paymentData st)) as [| total].
  - exists (inject_Z 0). split; [reflexivity | apply Qle_refl].
  - destruct (Qle_bool (total - paid) 0) eqn:E.
    + exists (inject_Z 0). split; [reflexivity | apply Qle_refl].
    + exists (total - paid)%Q. split; [reflexivity |].
      destruct (Qlt_le_dec 0 (total - paid)) as [Hlt | Hle].
      * now apply Qlt_le_weak.
      * apply Qle_bool_iff in Hle. congruence.
Qed.

End PaymentSplit.

(** ** Displayed total *)



(** ** Number-of-rooms selector *)

Lemma Zle_Qfloor (k : Z) (q : Q) : k <= Qfloor q <-> (inject_Z k <= q)%Q.
Proof.
  split; intro H.
  - apply Qle_trans with (y := inject_Z (Qfloor q)).
    + now rewrite <- Zle_Qle.
    + apply Qfloor_le.
  - rewrite <- (Qfloor_Z k). now apply Qfloor_resp_le.
Qed.

Lemma In_Array_from_length (k : Z) (q : Q) :
  In k (Array_from_length (Num q)) <-> 1 <= k /\ (inject_Z k <= q)%Q.
Proof.
  unfold Array_from_length, ToLength.
  rewrite in_map_iff, <- Zle_Qfloor.
  split.
  - intros (i & <- & Hi). apply in_seq in Hi. lia.
  - intros [H1 H2]. exists (Z.to_nat (k - 1)). split; [lia |].
    apply in_seq. lia.
Qed.

Lemma NoDup_Array_from_length (n : number) : NoDup (Array_from_length n).
Proof.
  unfold Array_from_length.
  apply Injective_map_NoDup; [| apply seq_NoDup].
  intros i j H. lia.
Qed.

Lemma availableCountOr0_Some (room : Room.t) (a : Q) :
  Room.availableCount room = Some (Num a) ->
  exists q, availableCountOr0 (Some room) = Num q /\ (q == a)%Q.
Proof.
  intro H. unfold availableCountOr0. rewrite H.
  pose proof (or0_Num_eq a) as Heq.
  destruct (or0 (Num a)) as [| q]; [contradiction |].
  now exists q.
Qed.

(** The options rendered for a selected room: the integers from 1 up to
    the smaller of 10 and the room's count. *)
Lemma In_numberOfRoomsOptions (st : State) (room : Room.t) (a : Q)
    (k : Z) :
  selectedRoomId st <> "" ->
  getSelectedRoom st = Some room ->
  Room.availableCount room = Some (Num a) ->
  In k (numberOfRoomsOptions st)
  <-> 1 <= k /\ k <= 10 /\ (inject_Z k <= a)%Q.
Proof.
  intros Hid Hroom Hcount.
  apply truthy_str_true in Hid.
  unfold numberOfRoomsOptions. rewrite Hid, Hroom. cbn [negb].
  destruct (availableCountOr0_Some room a Hcount) as (q & -> & Hq).
  unfold Math_min, ofZ. rewrite In_Array_from_length.
  destruct (Qle_bool (inject_Z 10) q) eqn:E.
  - apply Qle_bool_iff in E. rewrite Hq in E.
    rewrite <- Zle_Qle. split; [intros [H1 H2] | tauto].
    repeat split; try assumption.
    apply Qle_trans with (y := inject_Z 10); [| exact E].
    now rewrite <- Zle_Qle.
  - assert (Hlt : (a < inject_Z 10)%Q).
    { destruct (Qlt_le_dec a (inject_Z 10)) as [Hlt | Hle]; [exact Hlt |].
      rewrite <- Hq in Hle. apply Qle_bool_iff in Hle. congruence. }
    rewrite Hq. split; [intros [H1 H2] | tauto].
    repeat split; try assumption.
    rewrite Zle_Qle. apply Qlt_le_weak.
    now apply Qle_lt_trans with (y := a).
Qed.

(** C10.  For every selected room with count [a], the selectable
    number-of-rooms values are exactly the integers from 1 to
    [min(10, a)], each offered once: no value above 10 is offered, and
    none at all when [a = 0]. *)
Theorem numberOfRoomsOptions_exact (st : State) (room : Room.t) (a : Q) :
  selectedRoomId st <> "" ->
  getSelectedRoom st = Some room ->
  Room.availableCount room = Some (Num a) ->
  (forall k : Z,
     In k (numberOfRoomsOptions st)
     <-> 1 <= k /\ (inject_Z k <= Qmin (inject_Z 10) a)%Q)
  /\ NoDup (numberOfRoomsOptions st)
  /\ (forall k : Z, In k (numberOfRoomsOptions st) -> k <= 10)
  /\ ((a == 0)%Q -> numberOfRoomsOptions st = []).
Proof.
  intros Hid Hroom Hcount.
  pose proof (fun k => In_numberOfRoomsOptions st room a k Hid Hroom Hcount)
    as Hin.
  split; [| split; [| split]].
  - intro k. rewrite Hin, Q.min_glb_iff, <- Zle_Qle. tauto.
  - unfold numberOfRoomsOptions.
    apply truthy_str_true in Hid. rewrite Hid. cbn [negb].
    apply NoDup_Array_from_length.
  - intros k Hk. apply Hin in Hk. tauto.
  - intro Ha.
    destruct (numberOfRoomsOptions st) as [| k l] eqn:E; [reflexivity |].
    exfalso.
    assert (Hk : In k (k :: l)) by now left.
    apply Hin in Hk. destruct Hk as (H1 & _ & H2).
    rewrite Ha in H2. change 0%Q with (inject_Z 0) in H2.
    rewrite <- Zle_Qle in H2. lia.
Qed.

Lemma numberOfRoomsOptions_three (st : State) (room : Room.t) (a : Q) :
  selectedRoomId st <> "" ->
  getSelectedRoom st = Some room ->
  Room.availableCount room = Some (Num a) ->
  (a == inject_Z 3)%Q ->
  numberOfRoomsOptions st = [1; 2; 3].
Proof.
  intros Hid Hroom Hcount Ha.
  apply truthy_str_true in Hid.
  unfold numberOfRoomsOptions. rewrite Hid, Hroom. cbn [negb].
  destruct (availableCountOr0_Some room a Hcount) as (q & -> & Hq).
  assert (Hq3 : (q == inject_Z 3)%Q) by now rewrite Hq.
  unfold Math_min, ofZ.
  assert (E : Qle_bool (inject_Z 10) q = false).
  { destruct (Qle_bool (inject_Z 10) q) eqn:E; [| reflexivity].
    apply Qle_bool_iff in E. rewrite Hq3, <- Zle_Qle in E. lia. }
  rewrite E. unfold Array_from_length, ToLength.
  rewrite (Qfloor_comp _ _ Hq3), Qfloor_Z. reflexivity.
Qed.

(** C3 (amended).  For a selected room with count [a], the selector
    offers a requested count [r] exactly when [1 <= r <= min(10, a)];
    choosing an offered count stores [r] itself, which is [min(r, a)]
    floored at 1, hence neither above [a] nor below 1.  A count outside
    [1 .. min(10, a)] is not offered: with a count of 3 the offered
    counts are exactly 1, 2 and 3, so 10 is not offered and 3 is the
    largest count that can be chosen.  The stored count is not clamped
    again afterwards: a click on a room leaves it as it is. *)
Theorem numberOfRooms_choice (st : State) (room : Room.t) (a : Q)
    (requested : Z) :
  selectedRoomId st <> "" ->
  getSelectedRoom st = Some room ->
  Room.availableCount room = Some (Num a) ->
  (In requested (numberOfRoomsOptions st)
   <-> 1 <= requested /\ requested <= 10 /\ (inject_Z requested <= a)%Q)
  /\ (In requested (numberOfRoomsOptions st) ->
      numberOfRooms (onNumberOfRoomsChange requested st) = ofZ requested
      /\ (inject_Z requested == spec_clampRoomCount requested a)%Q
      /\ (inject_Z requested <= a)%Q
      /\ 1 <= requested)
  /\ ((a == inject_Z 3)%Q ->
      numberOfRoomsOptions st = [1; 2; 3]
      /\ ~ In 10 (numberOfRoomsOptions st)
      /\ (forall k, In k (numberOfRoomsOptions st) -> k <= 3)
      /\ numberOfRooms (onNumberOfRoomsChange 3 st) = ofZ 3)
  /\ (forall room' : Room.t,
        numberOfRooms (onRoomClick room' (onNumberOfRoomsChange requested st))
        = ofZ requested).
Proof.
  intros Hid Hroom Hcount.
  pose proof (fun k => In_numberOfRoomsOptions st room a k Hid Hroom Hcount)
    as Hin.
  split; [apply Hin | split; [| split]];
    [| | intro room'; unfold onRoomClick;
         destruct (isSelectable room'); reflexivity].
  - intro Hr. apply Hin in Hr. destruct Hr as (H1 & H10 & Ha).
    split; [reflexivity | split; [| split; assumption]].
    unfold spec_clampRoomCount.
    rewrite Q.min_l by exact Ha.
    rewrite Q.max_r; [reflexivity |].
    change 1%Q with (inject_Z 1). now rewrite <- Zle_Qle.
  - intro Ha.
    rewrite (numberOfRoomsOptions_three st room a Hid Hroom Hcount Ha).
    split; [reflexivity | split; [| split; [| reflexivity]]].
    + cbn. intuition discriminate.
    + intros k [<- | [<- | [<- | []]]]; lia.
Qed.

(** ** Confirmation *)

Lemma to_int_proper (z : Z) :
  Z.to_int z <> Decimal.Pos Decimal.Nil
  /\ Z.to_int z <> Decimal.Neg Decimal.Nil.
Proof.
  destruct z as [| p | p]; simpl; split; try discriminate;
    intro H; injection H as H; exact (Unsigned.to_uint_nonnil p H).
Qed.

(** Distinct clock readings are rendered as distinct identifiers. *)
Lemma Number_toString_inj (a b : Z) :
  Number_toString a = Number_toString b -> a = b.
Proof.
  unfold Number_toString. intro H.
  apply DecimalZ.to_int_inj.
  destruct (to_int_proper a) as [Ha1 Ha2], (to_int_proper b) as [Hb1 Hb2].
  pose proof (NilZero.isi _ Ha1 Ha2) as Ea.
  pose proof (NilZero.isi _ Hb1 Hb2) as Eb.
  rewrite H in Ea. congruence.
Qed.

Lemma find_none_iff {A : Type} (f : A -> bool) (l : list A) :
  find f l = None <-> forall x, In x l -> f x = false.
Proof.
  split; [apply find_none |].
  induction l as [| x l IH]; intro H; [reflexivity |].
  simpl. rewrite (H x (or_introl eq_refl)).
  apply IH. intros y Hy. apply H. now right.
Qed.

Lemma getSelectedRoom_None (st : State) :
  getSelectedRoom st = None
  <-> forall room, In room (rooms st) -> Room.id room <> selectedRoomId st.
Proof.
  unfold getSelectedRoom. rewrite find_none_iff.
  split; intros H room Hin; specialize (H room Hin).
  - now apply String.eqb_neq.
  - now apply String.eqb_neq.
Qed.

Section Confirmation.
Context {host : Host}.

Lemma handleConfirmBooking_Some (clk : Clock) (st : State)
    (room : Room.t) :
  getSelectedRoom st = Some room ->
  handleConfirmBooking clk st
  = setBookings (bookings st ++ [newBooking clk room st])%list st.
Proof.
  intro H. unfold handleConfirmBooking. now rewrite H.
Qed.

Lemma handleConfirmBooking_None (clk : Clock) (st : State) :
  getSelectedRoom st = None -> handleConfirmBooking clk st = st.
Proof.
  intro H. unfold handleConfirmBooking. now rewrite H.
Qed.

(** C4 (amended).  When a room is selected, confirmation appends one
    Booking whose identifier is the decimal rendering of the clock reading
    taken for it (so different readings give different identifiers),
    whose creation time is the ISO rendering of the current time, whose
    room, payment and room count are verbatim the selected room, the
    payment input and the chosen count, and whose guest is the guest input
    with [arrival], [departure] and [roomRate] overwritten by the current
    arrival date, departure date and the selected room's rate; every
    other guest field is copied unchanged, and the guest is verbatim the
    input when the input already carries those three values. *)
Theorem handleConfirmBooking_assembles (clk : Clock) (st : State)
    (room : Room.t) :
  getSelectedRoom st = Some room ->
  exists b : Booking.t,
    bookings (handleConfirmBooking clk st) = (bookings st ++ [b])%list
    /\ Booking.id b = Number_toString (now_id clk)
    /\ (forall t : Z, Number_toString t = Booking.id b -> t = now_id clk)
    /\ Booking.createdAt b = Date_toISOString (now_createdAt clk)
    /\ Booking.resId b
       = (if truthy_str (Guest.resId (guestData st))
          then Guest.resId (guestData st)
          else "RES" ++ Number_toString (now_resId clk))
    /\ Booking.status b = confirmed
    /\ Booking.room b = room
    /\ Booking.payment b = paymentData st
    /\ Booking.numberOfRooms b = numberOfRooms st
    /\ same_profile (Booking.guest b) (guestData st)
    /\ Guest.arrival (Booking.guest b) = arrivalDate st
    /\ Guest.departure (Booking.guest b) = departureDate st
    /\ Guest.roomRate (Booking.guest b) = Room.rate room
    /\ (Guest.arrival (guestData st) = arrivalDate st ->
        Guest.departure (guestData st) = departureDate st ->
        Guest.roomRate (guestData st) = Room.rate room ->
        Booking.guest b = guestData st).
Proof.
  intro Hroom. exists (newBooking clk room st).
  rewrite (handleConfirmBooking_Some _ _ _ Hroom).
  split; [reflexivity | split; [reflexivity | split]].
  - intros t Ht. now apply Number_toString_inj.
  - repeat (split; [reflexivity |]).
    split; [unfold same_profile; simpl; tauto |].
    repeat (split; [reflexivity |]).
    intros Ha Hd Hr. simpl. rewrite <- Ha, <- Hd, <- Hr.
    destruct (guestData st); reflexivity.
Qed.

(** C6.  After [handleConfirmBooking] the bookings list is the prior list
    with at most one Booking appended at its end: the prior list is a
    prefix of the new one, every prior Booking is found unchanged at its
    position, and no other cell of the state is written. *)
Theorem handleConfirmBooking_appends (clk : Clock) (st : State) :
  let st' := handleConfirmBooking clk st in
  (bookings st' = bookings st
   \/ exists b : Booking.t, bookings st' = (bookings st ++ [b])%list)
  /\ firstn (List.length (bookings st)) (bookings st') = bookings st
  /\ (forall (i : nat) (b : Booking.t),
        nth_error (bookings st) i = Some b ->
        nth_error (bookings st') i = Some b)
  /\ st' = setBookings (bookings st') st.
Proof.
  intro st'. subst st'. unfold handleConfirmBooking.
  destruct (getSelectedRoom st) as [room |].
  - cbn [bookings setBookings].
    split; [right; eexists; reflexivity | split; [| split]].
    + rewrite firstn_app, Nat.sub_diag, firstn_all. simpl.
      apply app_nil_r.
    + intros i b Hi. rewrite nth_error_app1; [exact Hi |].
      apply nth_error_Some. congruence.
    + reflexivity.
  - split; [now left | split; [apply firstn_all | split]].
    + trivial.
    + destruct st; reflexivity.
Qed.

(** C9.  If the selected room id matches no room of the loaded rooms
    list, [handleConfirmBooking] changes nothing: the state, and with it
    the bookings list, is returned as it was, and no Booking is made. *)
Theorem handleConfirmBooking_unknown_room (clk : Clock) (st : State) :
  (forall room, In room (rooms st) -> Room.id room <> selectedRoomId st) ->
  handleConfirmBooking clk st = st
  /\ bookings (handleConfirmBooking clk st) = bookings st.
Proof.
  intro H. apply getSelectedRoom_None in H.
  rewrite (handleConfirmBooking_None _ _ H). split; reflexivity.
Qed.

End Confirmation.

(** * The page on concrete inputs (reference host) *)

(** C7.  End to end: arrival 2024-01-15 and departure 2024-01-20 give 5
    nights; with a rate of 250 and 2 rooms the total is 2500; and with
    that total as the amount, a paid-today input of 500 leaves a
    remaining balance of 2000. *)
Theorem end_to_end_scenario :
  let st0 := sampleState [sampleRoom "room-1" 250 5] in
  let st1 :=
    @onDepartureDateChange reference_host "2024-01-20"
      (@onArrivalDateChange reference_host "2024-01-15" st0) in
  let st2 := requestNumberOfRooms 2 st1 in
  let st3 := @onAmountChange reference_host "2500" st2 in
  let st4 := @onAmountPaidTodayChange reference_host "500" st3 in
  numberOfNights
    (@calculateNights reference_host "2024-01-15" "2024-01-20"
       (setNumberOfNights (ofZ 0) st0)) = ofZ 5
  /\ numberOfNights st1 = ofZ 5
  /\ rateOr0 (getSelectedRoom st2) = ofZ 250
  /\ numberOfRooms st2 = ofZ 2
  /\ totalPrice st2 = ofZ 2500
  /\ computeTotal (ofZ 250) (ofZ 5) (ofZ 2) = ofZ 2500
  /\ Payment.amount (paymentData st3) = totalPrice st2
  /\ Payment.amountPaidToday (paymentData st4) = Some (ofZ 500)
  /\ Payment.remainingBalance (paymentData st4) = Some (ofZ 2000).
Proof.
  vm_compute. repeat split.
Qed.

(** C1, on a stay of twelve hours: one night. *)
Lemma calculateNights_rounds_up_witness :
  @Date_parse reference_host "2024-01-15T18:00:00.000Z"
  = Num (inject_Z 1705341600000)
  /\ @Date_parse reference_host "2024-01-16T06:00:00.000Z"
     = Num (inject_Z 1705384800000)
  /\ numberOfNights
       (@calculateNights reference_host "2024-01-15T18:00:00.000Z"
          "2024-01-16T06:00:00.000Z" initialState) = ofZ 1.
Proof.
  split; [reflexivity | split; [reflexivity |]].
  destruct (@calculateNights_rounds_up reference_host
              "2024-01-15T18:00:00.000Z" "2024-01-16T06:00:00.000Z"
              (inject_Z 1705341600000) (inject_Z 1705384800000)
              initialState eq_refl eq_refl)
    as (n & Hn & _ & _ & _ & _ & Hone).
  rewrite Hn. f_equal. apply Hone; reflexivity || discriminate.
Defined.

(** C2, on an amount of 1250 and inputs of 500 and of 2000. *)
Lemma amountPaidToday_remainingBalance_witness :
  Payment.amount (paymentData initialState) = Num (inject_Z 1250)
  /\ (exists r : Q,
        Payment.remainingBalance
          (paymentData
             (@onAmountPaidTodayChange reference_host "500" initialState))
        = Some (Num r) /\ (0 <= r)%Q)
  /\ Payment.remainingBalance
       (paymentData
          (@onAmountPaidTodayChange reference_host "2000" initialState))
     = Some (ofZ 0).
Proof.
  split; [reflexivity | split].
  - destruct (@amountPaidToday_remainingBalance reference_host "500"
                initialState (inject_Z 1250) eq_refl)
      as (paid & r & _ & _ & Hr & _ & Hnn & _).
    exists r. split; assumption.
  - destruct (@amountPaidToday_remainingBalance reference_host "2000"
                initialState (inject_Z 1250) eq_refl)
      as (paid & r & Hpaid & _ & _ & _ & _ & Hzero).
    apply Hzero.
    injection Hpaid as <-. discriminate.
Defined.

(** C3: the wording of the claim fails.  With 15 rooms available and 12
    requested, [min(12, 15)] floored at 1 is 12, but the selector offers
    1 to 10 only, so 12 cannot be chosen.  And the count held can exceed
    the available count: 5 rooms chosen for a room with 5 available stay
    chosen after a click on a room with 2 available; with no room
    available the initial count 1 is above the available count 0. *)
Lemma clampRoomCount_counterexample :
  let st15 := sampleState [sampleRoom "room-1" 250 15] in
  let room2 := sampleRoom "room-2" 300 2 in
  let st5 := sampleState [sampleRoom "room-1" 250 5; room2] in
  let stale := onRoomClick room2 (onNumberOfRoomsChange 5 st5) in
  let st0 := sampleState [sampleRoom "room-1" 250 0] in
  getSelectedRoom st15 = Some (sampleRoom "room-1" 250 15)
  /\ (spec_clampRoomCount 12 (inject_Z 15) == inject_Z 12)%Q
  /\ numberOfRoomsOptions st15 = [1; 2; 3; 4; 5; 6; 7; 8; 9; 10]
  /\ ~ In 12 (numberOfRoomsOptions st15)
  /\ In 5 (numberOfRoomsOptions st5)
  /\ getSelectedRoom stale = Some room2
  /\ Room.availableCount room2 = Some (ofZ 2)
  /\ numberOfRooms stale = ofZ 5
  /\ number_gt (numberOfRooms stale)
               (availableCountOr0 (getSelectedRoom stale)) = true
  /\ getSelectedRoom st0 = Some (sampleRoom "room-1" 250 0)
  /\ numberOfRoomsOptions st0 = []
  /\ numberOfRooms st0 = ofZ 1
  /\ number_gt (numberOfRooms st0)
               (availableCountOr0 (getSelectedRoom st0)) = true.
Proof.
  vm_compute. repeat split; try (right; right; right; right; left; reflexivity).
  intuition discriminate.
Qed.


(** C3 (amended), on a room with 3 available: 2 is offered and stored,
    10 is not offered. *)
Lemma numberOfRooms_choice_witness :
  let st := sampleState [sampleRoom "room-1" 250 3] in
  selectedRoomId st <> ""
  /\ getSelectedRoom st = Some (sampleRoom "room-1" 250 3)
  /\ In 2 (numberOfRoomsOptions st)
  /\ numberOfRooms (onNumberOfRoomsChange 2 st) = ofZ 2
  /\ numberOfRoomsOptions st = [1; 2; 3]
  /\ ~ In 10 (numberOfRoomsOptions st).
Proof.
  intro st.
  assert (Hid : selectedRoomId st <> "") by discriminate.
  destruct (numberOfRooms_choice st (sampleRoom "room-1" 250 3)
              (inject_Z 3) 2 Hid eq_refl eq_refl)
    as (Hin & Hstore & H3 & _).
  assert (H2 : In 2 (numberOfRoomsOptions st)).
  { apply Hin. repeat split; discriminate. }
  destruct (Hstore H2) as (Hs & _).
  destruct (H3 (Qeq_refl _)) as (Hopts & Hnot & _).
  repeat split; assumption.
Defined.

(** C10, on a room with 15 available: ten options. *)
Lemma numberOfRoomsOptions_exact_witness :
  let st := sampleState [sampleRoom "room-1" 250 15] in
  selectedRoomId st <> ""
  /\ getSelectedRoom st = Some (sampleRoom "room-1" 250 15)
  /\ In 10 (numberOfRoomsOptions st)
  /\ ~ In 11 (numberOfRoomsOptions st).
Proof.
  intro st.
  assert (Hid : selectedRoomId st <> "") by discriminate.
  destruct (numberOfRoomsOptions_exact st (sampleRoom "room-1" 250 15)
              (inject_Z 15) Hid eq_refl eq_refl) as (Hin & _ & Hmax & _).
  split; [exact Hid | split; [reflexivity | split]].
  - apply Hin. split; discriminate.
  - intro H. apply Hmax in H. apply H. reflexivity.
Defined.

(** C4: the wording of the claim fails.  After the alternative price has
    been set to 300 and the arrival date moved, the guest of the new
    Booking carries the room's rate 250 and the new arrival date, and so
    is not the guest input. *)
Lemma verbatim_guest_counterexample :
  let st :=
    @onArrivalDateChange reference_host "2024-01-16"
      (@onAlternativePriceChange reference_host "300"
         (sampleState [sampleRoom "room-1" 250 5])) in
  exists b : Booking.t,
    bookings (@handleConfirmBooking reference_host sampleClock st) = [b]
    /\ Guest.roomRate (guestData st) = ofZ 300
    /\ Guest.roomRate (Booking.guest b) = ofZ 250
    /\ Guest.arrival (guestData st) = "2024-01-15"
    /\ Guest.arrival (Booking.guest b) = "2024-01-16"
    /\ Booking.guest b <> guestData st.
Proof.
  eexists. vm_compute. repeat split. discriminate.
Qed.

(** C4 (amended), on the sample page. *)
Lemma handleConfirmBooking_assembles_witness :
  let st := sampleState [sampleRoom "room-1" 250 5] in
  getSelectedRoom st = Some (sampleRoom "room-1" 250 5)
  /\ exists b : Booking.t,
       bookings (@handleConfirmBooking reference_host sampleClock st) = [b]
       /\ Booking.id b = "1705298400250"
       /\ Booking.createdAt b = "2024-01-15T06:00:00.251Z"
       /\ Booking.guest b = guestData st.
Proof.
  intro st. split; [reflexivity |].
  destruct (@handleConfirmBooking_assembles reference_host sampleClock st
              (sampleRoom "room-1" 250 5) eq_refl)
    as (b & Hb & Hid & _ & Hat & _ & _ & _ & _ & _ & _ & _ & _ & _ & Hg).
  exists b. split; [exact Hb | split; [exact Hid | split; [exact Hat |]]].
  apply Hg; reflexivity.
Defined.

(** C5: the wording of the claim fails.  Clearing the arrival input of
    the initial page leaves an invalid range, yet the stored nights stay
    at 5 instead of becoming 0. *)
Lemma cleared_date_counterexample :
  let st' := @onArrivalDateChange reference_host "" initialState in
  arrivalDate st' = ""
  /\ invalid_or_inverted (@Date_parse reference_host (arrivalDate st'))
                         (@Date_parse reference_host (departureDate st'))
  /\ numberOfNights st' = ofZ 5
  /\ numberOfNights st' <> ofZ 0.
Proof.
  vm_compute. repeat split. discriminate.
Qed.

(** C5 (amended), on the initial page: an arrival after the departure
    gives 0 nights, an unreadable date gives 0 nights, and a cleared
    departure leaves the nights as they were. *)
Lemma date_change_recomputes_nights_witness :
  numberOfNights (@onArrivalDateChange reference_host "2024-01-25"
                    initialState) = ofZ 0
  /\ numberOfNights (@onDepartureDateChange reference_host "20-01-2024"
                       initialState) = ofZ 0
  /\ numberOfNights (@onDepartureDateChange reference_host ""
                       initialState) = numberOfNights initialState.
Proof.
  split; [| split].
  - destruct (@date_change_recomputes_nights reference_host "2024-01-25"
                initialState) as (_ & _ & H & _).
    apply H; discriminate.
  - destruct (@date_change_recomputes_nights reference_host "20-01-2024"
                initialState) as (_ & _ & _ & H & _).
    apply H; try discriminate. exact I.
  - destruct (@date_change_recomputes_nights reference_host ""
                initialState) as (_ & _ & _ & _ & _ & H).
    apply H. now left.
Defined.

(** C6, on a page that already lists one booking. *)
Lemma handleConfirmBooking_appends_witness :
  let st :=
    @handleConfirmBooking reference_host sampleClock
      (sampleState [sampleRoom "room-1" 250 5]) in
  let b0 := @newBooking reference_host sampleClock
              (sampleRoom "room-1" 250 5)
              (sampleState [sampleRoom "room-1" 250 5]) in
  nth_error (bookings st) 0 = Some b0
  /\ nth_error
       (bookings (@handleConfirmBooking reference_host sampleClock st)) 0
     = Some b0.
Proof.
  intros st b0. split; [reflexivity |].
  destruct (@handleConfirmBooking_appends reference_host sampleClock st)
    as (_ & _ & H & _).
  apply H. reflexivity.
Defined.

(** C9, on a page that lists rooms 2 and 3 and one booking while the
    selected id is still ["room-1"]. *)
Lemma handleConfirmBooking_unknown_room_witness :
  let loaded :=
    sampleState [sampleRoom "room-2" 300 2; sampleRoom "room-3" 180 4] in
  let st :=
    setBookings
      [@newBooking reference_host sampleClock (sampleRoom "room-2" 300 2)
         loaded]
      loaded in
  selectedRoomId st = "room-1"
  /\ map Room.id (rooms st) = ["room-2"; "room-3"]
  /\ (forall room, In room (rooms st) -> Room.id room <> selectedRoomId st)
  /\ @handleConfirmBooking reference_host sampleClock st = st
  /\ List.length
       (bookings (@handleConfirmBooking reference_host sampleClock st))
     = 1%nat.
Proof.
  intros loaded st.
  assert (H : forall room, In room (rooms st) ->
                           Room.id room <> selectedRoomId st).
  { intros room [<- | [<- | []]]; discriminate. }
  destruct (@handleConfirmBooking_unknown_room reference_host sampleClock
              st H) as [Hst Hb].
  split; [reflexivity | split; [reflexivity | split; [exact H |]]].
  split; [exact Hst |]. rewrite Hb. reflexivity.
Defined.

(** * Further properties of the booking page *)

Lemma filter_true_id {A : Type} (f : A -> bool) (l : list A) :
  (forall x, In x l -> f x = true) -> filter f l = l.
Proof.
  induction l as [| x l IH]; intro H; [reflexivity |].
  simpl. rewrite (H x (or_introl eq_refl)). f_equal.
  apply IH. intros y Hy. apply H. now right.
Qed.

Section OperationsTable.
Context {host : Host}.


End OperationsTable.

Lemma bookingMatches_no_range (statusFilter : string) (b : Booking.t) :
  bookingMatches statusFilter (mkDateRange "" "") b
  = negb (truthy_str statusFilter)
    || String.eqb (BookingStatus_toString (Booking.status b)) statusFilter.
Proof.
  unfold bookingMatches. cbn [range_start range_end truthy_str negb orb andb].
  apply andb_true_r.
Qed.

(** X2.  With no date filter, the empty status filter lists every
    booking; under a non-empty filter a booking is listed exactly when
    its status is the filter string, so no booking is listed under two
    different non-empty filters, and no filtered list is longer than the
    bookings list. *)
Theorem filteredBookings_by_status (st : State)
    (statusFilter other : string) :
  let none := mkDateRange "" "" in
  filteredBookings "" none st = bookings st
  /\ (statusFilter <> "" ->
      forall b : Booking.t,
        In b (filteredBookings statusFilter none st)
        <-> In b (bookings st)
            /\ BookingStatus_toString (Booking.status b) = statusFilter)
  /\ (statusFilter <> "" -> other <> "" -> statusFilter <> other ->
      forall b : Booking.t,
        ~ (In b (filteredBookings statusFilter none st)
           /\ In b (filteredBookings other none st)))
  /\ (List.length (filteredBookings statusFilter none st)
      <= List.length (bookings st))%nat.
Proof.
  intro none. subst none. unfold filteredBookings.
  assert (Hin : forall sf, sf <> "" ->
            forall b,
              In b (filter (bookingMatches sf (mkDateRange "" ""))
                           (bookings st))
              <-> In b (bookings st)
                  /\ BookingStatus_toString (Booking.status b) = sf).
  { intros sf Hne b. rewrite filter_In, bookingMatches_no_range.
    apply truthy_str_true in Hne. rewrite Hne. cbn [negb orb].
    now rewrite String.eqb_eq. }
  split; [| split; [| split]].
  - apply filter_true_id. reflexivity.
  - intro Hne. now apply Hin.
  - intros Hne Hne' Hdiff b [H1 H2].
    apply (Hin _ Hne) in H1. apply (Hin _ Hne') in H2.
    destruct H1 as [_ H1], H2 as [_ H2]. congruence.
  - apply filter_length_le.
Qed.

(** ** Room and hotel selection *)

Lemma find_by_id (room : Room.t) (l : list Room.t) :
  In room l ->
  NoDup (map Room.id l) ->
  find (fun r => String.eqb (Room.id r) (Room.id room)) l = Some room.
Proof.
  induction l as [| r l IH]; intros Hin Hnd; [destruct Hin |].
  cbn [map] in Hnd. inversion Hnd as [| x xs Hnotin Hnd']; subst.
  cbn [find]. destruct Hin as [-> | Hin].
  - now rewrite String.eqb_refl.
  - destruct (String.eqb_spec (Room.id r) (Room.id room)) as [E | E].
    + exfalso. apply Hnotin. rewrite E. now apply in_map.
    + now apply IH.
Qed.

Lemma isSelectable_iff (room : Room.t) :
  isSelectable room = true
  <-> Room.status room = available
      /\ exists a : Q,
           Room.availableCount room = Some (Num a) /\ (0 < a)%Q.
Proof.
  unfold isSelectable, availableCountOr0.
  split.
  - destruct (Room.status room); try discriminate.
    destruct (Room.availableCount room) as [[| a] |]; try discriminate.
    intro H. split; [reflexivity |]. exists a. split; [reflexivity |].
    unfold or0, truthy in H.
    destruct (Qeq_bool a 0) eqn:E; cbn [negb] in H; [discriminate |].
    apply number_gt_Num in H. exact H.
  - intros [-> (a & -> & Ha)].
    unfold or0, truthy.
    destruct (Qeq_bool a 0) eqn:E; cbn [negb].
    + apply Qeq_bool_iff in E. rewrite E in Ha. discriminate.
    + now apply number_gt_Num.
Qed.

(** X3.  A click on a room card of a list with distinct room ids: a room
    that is available with a positive count becomes the selected room,
    while the chosen number of rooms is kept as it was (it is not
    re-validated against the new room); a click on any other room
    changes nothing. *)
Theorem onRoomClick_selects (st : State) (room : Room.t) :
  In room (rooms st) ->
  NoDup (map Room.id (rooms st)) ->
  let st' := onRoomClick room st in
  (isSelectable room = true
   <-> Room.status room = available
       /\ exists a : Q,
            Room.availableCount room = Some (Num a) /\ (0 < a)%Q)
  /\ (isSelectable room = true ->
      getSelectedRoom st' = Some room
      /\ numberOfRooms st' = numberOfRooms st
      /\ st' = setSelectedRoomId (Room.id room) st)
  /\ (isSelectable room = false -> st' = st).
Proof.
  intros Hin Hnd st'. subst st'. unfold onRoomClick.
  split; [apply isSelectable_iff | split]; intro H; rewrite H.
  - split; [| split; reflexivity].
    unfold getSelectedRoom. cbn [rooms selectedRoomId setSelectedRoomId].
    now apply find_by_id.
  - reflexivity.
Qed.

Section HotelChange.
Context {host : Host}.

(** X4.  Changing the hotel does not clear the room selection: the room
    selected before stays selected although it is no longer among the
    rooms listed for the new hotel, and a confirmation then books that
    room. *)
Theorem onHotelChange_keeps_room (clk : Clock) (st : State)
    (room : Room.t) (hotelId : string) :
  getSelectedRoom st = Some room ->
  Room.hotelId room <> hotelId ->
  let st' := onHotelChange hotelId st in
  selectedHotelId st' = hotelId
  /\ ~ In room (getAvailableRooms st')
  /\ getSelectedRoom st' = Some room
  /\ exists b : Booking.t,
       bookings (handleConfirmBooking clk st') = (bookings st ++ [b])%list
       /\ Booking.room b = room.
Proof.
  intros Hroom Hne st'. subst st'.
  split; [reflexivity | split; [| split]].
  - unfold getAvailableRooms, onHotelChange.
    cbn [rooms selectedHotelId setSelectedHotelId].
    intro Hin. apply filter_In in Hin. destruct Hin as [_ E].
    apply String.eqb_eq in E. contradiction.
  - exact Hroom.
  - exists (newBooking clk room (onHotelChange hotelId st)).
    rewrite (handleConfirmBooking_Some clk (onHotelChange hotelId st) room
               Hroom).
    split; reflexivity.
Qed.

End HotelChange.

(** ** Stay length and total *)

Lemma spec_computeNights_mono (ta td ta' td' : Q) :
  (ta' <= ta)%Q -> (td <= td')%Q ->
  spec_computeNights (Num ta) (Num td)
  <= spec_computeNights (Num ta') (Num td').
Proof.
  intros Ha Hd. unfold spec_computeNights.
  apply Z.max_le_compat_l, Qceiling_resp_le.
  unfold Qdiv. apply Qmult_le_compat_r; [lra | discriminate].
Qed.

Section StayAndTotal.
Context {host : Host}.


(** X6.  The stored nights are monotone in the stay: an arrival that is
    not later together with a departure that is not earlier never gives
    fewer nights. *)
Theorem calculateNights_monotone (a d a' d' : string) (ta td ta' td' : Q)
    (st st' : State) :
  Date_parse a = Num ta -> Date_parse d = Num td ->
  Date_parse a' = Num ta' -> Date_parse d' = Num td' ->
  (ta' <= ta)%Q -> (td <= td')%Q ->
  exists n n' : Z,
    numberOfNights (calculateNights a d st) = ofZ n
    /\ numberOfNights (calculateNights a' d' st') = ofZ n'
    /\ n <= n'.
Proof.
  intros Ha Hd Ha' Hd' Hle1 Hle2.
  exists (spec_computeNights (Num ta) (Num td)),
         (spec_computeNights (Num ta') (Num td')).
  rewrite !numberOfNights_calculateNights.
  - rewrite Ha, Hd, Ha', Hd'.
    split; [reflexivity | split; [reflexivity |]].
    now apply spec_computeNights_mono.
  - now rewrite (parseable_nonempty _ _ Ha'), (parseable_nonempty _ _ Hd').
  - now rewrite (parseable_nonempty _ _ Ha), (parseable_nonempty _ _ Hd).
Qed.

(** X7.  A stay of a whole number [k >= 0] of days is not rounded: the
    stored nights are exactly [k]. *)
Theorem calculateNights_whole_days (a d : string) (ta td : Q) (k : Z)
    (st : State) :
  Date_parse a = Num ta -> Date_parse d = Num td ->
  0 <= k ->
  (td - ta == inject_Z k * inject_Z 86400000)%Q ->
  numberOfNights (calculateNights a d st) = ofZ k.
Proof.
  intros Ha Hd Hk Hdiff.
  rewrite numberOfNights_calculateNights.
  - rewrite Ha, Hd. unfold spec_computeNights. f_equal.
    assert (E : ((td - ta) / inject_Z 86400000 == inject_Z k)%Q).
    { rewrite Hdiff. field. }
    rewrite (Qceiling_comp _ _ E), Qceiling_Z. lia.
  - now rewrite (parseable_nonempty _ _ Ha), (parseable_nonempty _ _ Hd).
Qed.

End StayAndTotal.

(** ** Payment split and amount *)

Section PaymentOrder.
Context {host : Host}.

(** X8.  Bounds of the stored balance.  For a payment and an amount that
    are not negative the balance never exceeds the amount; a payment of 0
    leaves the whole positive amount as balance; a payment of the amount
    or more leaves 0; and a larger payment never leaves a larger
    balance. *)
Theorem payment_split_bounds (v v' : string) (st : State)
    (total paidToday paidToday' : Q) :
  Payment.amount (paymentData st) = Num total ->
  or0 (parseFloat v) = Num paidToday ->
  or0 (parseFloat v') = Num paidToday' ->
  exists r r' : Q,
    Payment.remainingBalance (paymentData (onAmountPaidTodayChange v st))
    = Some (Num r)
    /\ Payment.remainingBalance
         (paymentData (onAmountPaidTodayChange v' st)) = Some (Num r')
    /\ ((0 <= paidToday)%Q -> (0 <= total)%Q -> (r <= total)%Q)
    /\ ((paidToday == 0)%Q -> (0 < total)%Q -> (r == total)%Q)
    /\ ((total <= paidToday)%Q -> (r == 0)%Q)
    /\ ((paidToday <= paidToday')%Q -> (r' <= r)%Q).
Proof.
  intros Hamount Hpaid Hpaid'.
  destruct (onAmountPaidTodayChange_stored v st)
    as (paid & Hp & _ & Hbal).
  destruct (onAmountPaidTodayChange_stored v' st)
    as (paid' & Hp' & _ & Hbal').
  rewrite Hpaid in Hp. injection Hp as <-.
  rewrite Hpaid' in Hp'. injection Hp' as <-.
  rewrite Hamount in Hbal, Hbal'. rewrite Hbal, Hbal'.
  assert (Hcase : forall p,
            (Qle_bool (total - p) 0 = true /\ (total - p <= 0)%Q)
            \/ (Qle_bool (total - p) 0 = false /\ (0 < total - p)%Q)).
  { intro p. destruct (Qle_bool (total - p) 0) eqn:E.
    - left. split; [reflexivity | now apply Qle_bool_iff].
    - right. split; [reflexivity |].
      destruct (Qlt_le_dec 0 (total - p)) as [Hlt | Hle]; [exact Hlt |].
      apply Qle_bool_iff in Hle. congruence. }
  destruct (Hcase paidToday) as [[-> H] | [-> H]],
           (Hcase paidToday') as [[-> H'] | [-> H']];
    eexists; eexists;
    (split; [reflexivity | split; [reflexivity |]]);
    change (inject_Z 0) with 0%Q;
    repeat split; intros; lra.
Qed.


End PaymentOrder.

(** ** Repeated confirmation *)

Section ConfirmTwice.
Context {host : Host}.


End ConfirmTwice.

(** * Paging *)

Lemma ceil_div_bounds (x n : Z) :
  0 < n ->
  let c := Qceiling (inject_Z x / inject_Z n) in
  (c - 1) * n < x <= c * n.
Proof.
  intros Hn c.
  assert (Hpos : (0 < inject_Z n)%Q).
  { change 0%Q with (inject_Z 0). now rewrite <- Zlt_Qlt. }
  assert (Heq : (inject_Z x == inject_Z x / inject_Z n * inject_Z n)%Q).
  { field. intro E. rewrite E in Hpos. discriminate. }
  pose proof (Qceiling_lt (inject_Z x / inject_Z n)) as Hlo.
  pose proof (Qle_ceiling (inject_Z x / inject_Z n)) as Hhi.
  fold c in Hlo, Hhi.
  split.
  - rewrite Zlt_Qlt, inject_Z_mult.
    apply Qlt_le_trans
      with (y := (inject_Z x / inject_Z n * inject_Z n)%Q).
    + apply Qmult_lt_compat_r; assumption.
    + rewrite <- Heq. apply Qle_refl.
  - rewrite Zle_Qle, inject_Z_mult.
    apply Qle_trans with (y := (inject_Z x / inject_Z n * inject_Z n)%Q).
    + rewrite <- Heq. apply Qle_refl.
    + apply Qmult_le_compat_r; [assumption | now apply Qlt_le_weak].
Qed.

Lemma totalPages_bounds (n : Z) {A : Type} (l : list A) :
  0 < n ->
  (totalPages n l - 1) * n < Z.of_nat (List.length l) <= totalPages n l * n.
Proof.
  intro Hn. apply (ceil_div_bounds (Z.of_nat (List.length l)) n Hn).
Qed.

Lemma totalPages_nonneg (n : Z) {A : Type} (l : list A) :
  0 < n -> 0 <= totalPages n l.
Proof.
  intro Hn. pose proof (totalPages_bounds n l Hn). nia.
Qed.

(** For a page number from 1 on, the slice is the chunk of
    [itemsPerPage] elements after the first [currentPage - 1] chunks. *)
Lemma paginated_chunk (n p : Z) {A : Type} (l : list A) :
  0 < n -> 1 <= p ->
  paginated n p l
  = firstn (Z.to_nat n) (skipn (Z.to_nat ((p - 1) * n)) l).
Proof.
  intros Hn Hp. unfold paginated, Array_slice.
  set (len := Z.of_nat (List.length l)).
  assert (H0 : 0 <= (p - 1) * n) by nia.
  assert (H1 : 0 <= p * n) by nia.
  destruct (Z.ltb_spec ((p - 1) * n) 0) as [? | _]; [lia |].
  destruct (Z.ltb_spec (p * n) 0) as [? | _]; [lia |].
  destruct (Z_le_gt_dec ((p - 1) * n) len) as [Hin | Hout].
  - rewrite (Z.min_l _ _ Hin).
    destruct (Z_le_gt_dec (p * n) len) as [Hfull | Hpart].
    + rewrite (Z.min_l _ _ Hfull). f_equal. nia.
    + rewrite Z.min_r by lia.
      rewrite !firstn_all2; [reflexivity | |];
        rewrite length_skipn; unfold len in *; nia.
  - rewrite !Z.min_r by lia.
    replace (len - len) with 0 by lia. cbn [Z.to_nat firstn].
    rewrite (skipn_all2 (n := Z.to_nat ((p - 1) * n)));
      [now rewrite firstn_nil | unfold len in *; lia].
Qed.

Lemma concat_chunks {A : Type} (n T : nat) (l : list A) :
  (List.length l <= T * n)%nat ->
  List.concat (map (fun i => firstn n (skipn (i * n) l)) (seq 0 T)) = l.
Proof.
  revert l. induction T as [| T IH]; intros l Hlen.
  - destruct l; [reflexivity | simpl in Hlen; lia].
  - cbn [seq map List.concat]. rewrite <- seq_shift, map_map.
    cbn [Nat.mul skipn].
    rewrite (map_ext _ (fun i => firstn n (skipn (i * n) (skipn n l)))).
    + rewrite IH; [apply firstn_skipn |].
      rewrite length_skipn. lia.
    + intro i. f_equal. rewrite skipn_skipn. f_equal. lia.
Qed.

(** X11.  The pages cut the displayed list without loss or overlap: the
    pages [1 .. totalPages], one after the other, are the displayed
    list. *)
Theorem pages_partition (itemsPerPage : Z) {A : Type}
    (displayed : list A) :
  0 < itemsPerPage ->
  List.concat (map (fun p => paginated itemsPerPage p displayed)
              (allPages itemsPerPage displayed))
  = displayed.
Proof.
  intro Hn. unfold allPages. rewrite map_map.
  pose proof (totalPages_bounds itemsPerPage displayed Hn) as Hb.
  pose proof (totalPages_nonneg itemsPerPage displayed Hn) as Hnn.
  rewrite (map_ext _ (fun i => firstn (Z.to_nat itemsPerPage)
                                 (skipn (i * Z.to_nat itemsPerPage)
                                        displayed))).
  - apply concat_chunks. nia.
  - intro i. rewrite paginated_chunk; [| exact Hn | lia].
    f_equal. f_equal. nia.
Qed.

(** X12.  Sizes of the pages: every page before the last holds exactly
    [itemsPerPage] elements, the last page holds the remaining ones
    (between 1 and [itemsPerPage]), there is no page at all exactly when
    the list is empty, and a current page beyond the last one shows
    nothing (the current page is not reset when the list shrinks). *)
Theorem page_sizes (itemsPerPage : Z) {A : Type} (displayed : list A)
    (currentPage : Z) :
  0 < itemsPerPage ->
  let T := totalPages itemsPerPage displayed in
  let size := Z.of_nat (List.length
                          (paginated itemsPerPage currentPage displayed)) in
  (T = 0 <-> displayed = [])
  /\ (1 <= currentPage < T -> size = itemsPerPage)
  /\ (1 <= currentPage -> currentPage = T ->
      size = Z.of_nat (List.length displayed) - (T - 1) * itemsPerPage
      /\ 1 <= size <= itemsPerPage)
  /\ (T < currentPage ->
      1 <= currentPage ->
      paginated itemsPerPage currentPage displayed = [])
  /\ (currentPage = 0 ->
      paginated itemsPerPage currentPage displayed = []).
Proof.
  intros Hn T size.
  pose proof (totalPages_bounds itemsPerPage displayed Hn) as Hb.
  fold T in Hb.
  assert (Hsize : 1 <= currentPage ->
                  size = Z.min itemsPerPage
                           (Z.max 0 (Z.of_nat (List.length displayed)
                                     - (currentPage - 1) * itemsPerPage))).
  { intro Hp. unfold size. rewrite paginated_chunk by assumption.
    rewrite length_firstn, length_skipn. nia. }
  split; [| split; [| split; [| split]]].
  - split; intro H.
    + destruct displayed; [reflexivity | cbn [List.length] in Hb; nia].
    + subst displayed. cbn [List.length] in Hb. nia.
  - intros [Hp1 Hp2]. rewrite Hsize by assumption. nia.
  - intros Hp1 Hp2. rewrite Hsize by assumption. nia.
  - intros Hp1 Hp2.
    apply length_zero_iff_nil.
    assert (size = 0) by (rewrite Hsize by assumption; nia).
    unfold size in *. lia.
  - intros ->. unfold paginated, Array_slice.
    replace (0 * itemsPerPage) with 0 by lia.
    destruct (Z.ltb_spec ((0 - 1) * itemsPerPage) 0) as [_ | ?]; [| lia].
    cbn [Z.ltb Z.compare].
    replace (Z.min 0 (Z.of_nat (List.length displayed))) with 0 by lia.
    replace (Z.to_nat (0 - _)) with O by lia.
    reflexivity.
Qed.

(** X13.  While the pagination bar is shown ([totalPages > 1]) and the
    current page lies in [1 .. totalPages], each control keeps it there:
    Previous and Next stay in range and stand still only at the first
    and at the last page, every numbered button is a page in range
    within [currentPage - 2 .. currentPage + 4], the current page is
    always among the buttons, and the page shown after any of these
    clicks is not empty. *)
Theorem page_navigation (itemsPerPage : Z) {A : Type} (displayed : list A)
    (currentPage : Z) :
  0 < itemsPerPage ->
  paginationShown itemsPerPage displayed = true ->
  let T := totalPages itemsPerPage displayed in
  1 <= currentPage <= T ->
  1 <= onPreviousClick currentPage <= T
  /\ 1 <= onNextClick itemsPerPage displayed currentPage <= T
  /\ (onPreviousClick currentPage = currentPage <-> currentPage = 1)
  /\ (onNextClick itemsPerPage displayed currentPage = currentPage
      <-> currentPage = T)
  /\ (forall page : Z,
        In page (pageButtons itemsPerPage displayed currentPage) ->
        1 <= page <= T /\ currentPage - 2 <= page <= currentPage + 4)
  /\ In currentPage (pageButtons itemsPerPage displayed currentPage)
  /\ (forall page : Z,
        1 <= page <= T -> paginated itemsPerPage page displayed <> []).
Proof.
  intros Hn Hshown T Hp.
  unfold paginationShown in Hshown. fold T in Hshown.
  apply Z.ltb_lt in Hshown.
  unfold onPreviousClick, onNextClick, pageButtons. fold T.
  split; [lia | split; [lia | split; [lia | split; [lia |]]]].
  split; [| split].
  - intros page Hin. apply filter_In in Hin. destruct Hin as [Hin Hle].
    apply negb_true_iff, Z.ltb_ge in Hle.
    apply in_map_iff in Hin. destruct Hin as (i & <- & Hi).
    apply in_seq in Hi. lia.
  - apply filter_In. split.
    + apply in_map_iff.
      exists (Z.to_nat (currentPage - Z.max 1 (currentPage - 2))).
      split; [lia |]. apply in_seq. lia.
    + apply negb_true_iff, Z.ltb_ge. lia.
  - intros page Hpage Hnil.
    pose proof (totalPages_bounds itemsPerPage displayed Hn) as Hb.
    fold T in Hb.
    assert (Hlen : List.length (paginated itemsPerPage page displayed) = O)
      by now rewrite Hnil.
    rewrite paginated_chunk in Hlen by lia.
    rewrite length_firstn, length_skipn in Hlen. nia.
Qed.

(** * The guests page *)

Lemma prefix_refl (s : string) : String.prefix s s = true.
Proof.
  induction s as [| c s IH]; [reflexivity |].
  cbn. destruct (ascii_dec c c); [exact IH | congruence].
Qed.

Lemma String_includes_refl (s : string) : String_includes s s = true.
Proof.
  destruct s; cbn -[String.prefix]; now rewrite prefix_refl.
Qed.

Lemma Set_from_acc (l acc : list string) :
  let step := fun (set : list string) (x : string) =>
                if existsb (String.eqb x) set then set
                else (set ++ [x])%list in
  NoDup acc ->
  NoDup (fold_left step l acc)
  /\ (forall x, In x (fold_left step l acc) <-> In x acc \/ In x l)
  /\ (List.length (fold_left step l acc)
      <= List.length acc + List.length l)%nat.
Proof.
  intro step. revert acc.
  induction l as [| y l IH]; intros acc Hnd.
  - cbn. split; [exact Hnd | split; [tauto | lia]].
  - cbn [fold_left].
    assert (Hstep : NoDup (step acc y)
                    /\ (forall x, In x (step acc y) <-> In x acc \/ x = y)
                    /\ (List.length (step acc y)
                        <= S (List.length acc))%nat).
    { unfold step. destruct (existsb (String.eqb y) acc) eqn:E.
      - split; [exact Hnd | split; [| lia]].
        intro x. split; [tauto |]. intros [H | ->]; [exact H |].
        apply existsb_exists in E. destruct E as (z & Hz & Ez).
        apply String.eqb_eq in Ez. now subst.
      - split; [| split].
        + apply NoDup_app; [exact Hnd | repeat constructor; intros [] |].
          intros x Hx [Heq | []]. subst x.
          assert (existsb (String.eqb y) acc = true); [| congruence].
          apply existsb_exists. exists y. split; [exact Hx |].
          apply String.eqb_refl.
        + intro x. rewrite in_app_iff. cbn. intuition.
        + rewrite length_app. cbn. lia. }
    destruct Hstep as (Hnd' & Hin' & Hlen').
    destruct (IH (step acc y) Hnd') as (H1 & H2 & H3).
    split; [exact H1 | split].
    + intro x. rewrite H2, Hin'. cbn. intuition.
    + cbn [List.length]. lia.
Qed.

Lemma guestMatches_no_filter (toLowerCase : string -> string)
    (guest : GuestsPage.Guest.t) :
  GuestsPage.guestMatches toLowerCase
    (GuestsPage.mkFilters "" "" "" "" "") guest = true.
Proof. reflexivity. Qed.

Lemma guestMatches_vip (toLowerCase : string -> string)
    (f : GuestsPage.Filters) (v : string) (g : GuestsPage.Guest.t) :
  GuestsPage.guestMatches toLowerCase (withVipFilter f v) g
  = GuestsPage.guestMatches toLowerCase (withVipFilter f "") g
    && (negb (truthy_str v)
        || (if String.eqb v "vip" then GuestsPage.Guest.vip g
            else negb (GuestsPage.Guest.vip g))).
Proof.
  unfold GuestsPage.guestMatches, withVipFilter.
  cbn [GuestsPage.searchQuery GuestsPage.nationalityFilter
       GuestsPage.vipFilter GuestsPage.loyaltyFilter
       GuestsPage.genderFilter].
  cbn [truthy_str negb orb].
  set (s := _ || _ || _ || _ || _).
  set (n := negb (truthy_str (GuestsPage.nationalityFilter f)) || _).
  set (l := negb (truthy_str (GuestsPage.loyaltyFilter f)) || _).
  set (ge := negb (truthy_str (GuestsPage.genderFilter f)) || _).
  set (vm := negb (truthy_str v) || _).
  destruct s, n, l, ge, vm; reflexivity.
Qed.

(** X14.  Whatever the other filters, a listed guest is listed under
    exactly one of the VIP filter values ["vip"] and ["regular"]; the two
    lists together have the size of the unfiltered one, and every
    non-empty filter value other than ["vip"] acts as ["regular"]. *)
Theorem vip_filter_partition (toLowerCase : string -> string)
    (f : GuestsPage.Filters) (guests : list GuestsPage.Guest.t) :
  let shown := fun v =>
    GuestsPage.filteredGuests toLowerCase (withVipFilter f v) guests in
  (forall g, In g (shown "") <-> In g (shown "vip") \/ In g (shown "regular"))
  /\ (forall g, ~ (In g (shown "vip") /\ In g (shown "regular")))
  /\ (List.length (shown "vip") + List.length (shown "regular")
      = List.length (shown ""))%nat
  /\ (forall v, v <> "" -> v <> "vip" -> shown v = shown "regular").
Proof.
  intro shown. subst shown. cbv beta.
  unfold GuestsPage.filteredGuests.
  split; [| split; [| split]].
  - intro g. rewrite !filter_In.
    rewrite (guestMatches_vip _ f "vip"), (guestMatches_vip _ f "regular").
    cbn [truthy_str negb orb].
    change ("vip" =? "vip")%string with true.
    change ("regular" =? "vip")%string with false. cbv iota.
    destruct (GuestsPage.guestMatches toLowerCase (withVipFilter f "") g),
      (GuestsPage.Guest.vip g); cbn; intuition congruence.
  - intros g [H1 H2]. apply filter_In in H1, H2.
    destruct H1 as [_ H1], H2 as [_ H2].
    rewrite guestMatches_vip in H1, H2.
    cbn [truthy_str negb orb] in H1, H2.
    change ("vip" =? "vip")%string with true in H1.
    change ("regular" =? "vip")%string with false in H2.
    cbv iota in H1, H2.
    destruct (GuestsPage.guestMatches toLowerCase (withVipFilter f "") g),
      (GuestsPage.Guest.vip g); cbn in H1, H2; discriminate.
  - induction guests as [| g l IH]; [reflexivity |].
    cbn [filter].
    rewrite (guestMatches_vip _ f "vip"), (guestMatches_vip _ f "regular").
    cbn [truthy_str negb orb].
    change ("vip" =? "vip")%string with true.
    change ("regular" =? "vip")%string with false. cbv iota.
    destruct (GuestsPage.guestMatches toLowerCase (withVipFilter f "") g),
      (GuestsPage.Guest.vip g); cbn; lia.
  - intros v Hv Hvip. apply filter_ext. intro g.
    rewrite (guestMatches_vip _ f v), (guestMatches_vip _ f "regular").
    apply truthy_str_true in Hv. rewrite Hv.
    apply String.eqb_neq in Hvip. rewrite Hvip. reflexivity.
Qed.

(** X15.  The nationality select offers each nationality of the guest
    list exactly once and nothing else, so [stats.nationalities] never
    exceeds the number of guests; choosing a non-empty option lists
    exactly the guests of that nationality, at least one. *)
Theorem nationality_options (toLowerCase : string -> string)
    (guests : list GuestsPage.Guest.t) :
  let options := GuestsPage.nationalityOptions guests in
  NoDup options
  /\ (forall x, In x options
      <-> exists g, In g guests /\ GuestsPage.Guest.nationality g = x)
  /\ (GuestsPage.stats_nationalities guests <= List.length guests)%nat
  /\ (forall x, In x options -> x <> "" ->
      let shown :=
        GuestsPage.filteredGuests toLowerCase
          (GuestsPage.mkFilters "" x "" "" "") guests in
      shown <> []
      /\ forall g, In g shown
                   <-> In g guests /\ GuestsPage.Guest.nationality g = x).
Proof.
  intro options. subst options.
  unfold GuestsPage.stats_nationalities, GuestsPage.nationalityOptions,
    Set_from.
  destruct (Set_from_acc (map GuestsPage.Guest.nationality guests) []
              (NoDup_nil _)) as (Hnd & Hin & Hlen).
  assert (Hin' : forall x,
             In x (fold_left
                     (fun set y =>
                        if existsb (String.eqb y) set then set
                        else (set ++ [y])%list)
                     (map GuestsPage.Guest.nationality guests) [])
             <-> exists g, In g guests
                           /\ GuestsPage.Guest.nationality g = x).
  { intro x. rewrite Hin, in_map_iff. cbn. split.
    - intros [[] | (g & E & Hg)]. now exists g.
    - intros (g & Hg & E). right. now exists g. }
  split; [exact Hnd | split; [exact Hin' | split]].
  - rewrite length_map in Hlen. exact Hlen.
  - intros x Hx Hne.
    set (shown := GuestsPage.filteredGuests toLowerCase _ guests).
    assert (Hshown : forall g, In g shown
                     <-> In g guests
                         /\ GuestsPage.Guest.nationality g = x).
    { intro g. unfold shown, GuestsPage.filteredGuests.
      rewrite filter_In. unfold GuestsPage.guestMatches.
      cbn [GuestsPage.searchQuery GuestsPage.nationalityFilter
           GuestsPage.vipFilter GuestsPage.loyaltyFilter
           GuestsPage.genderFilter truthy_str negb orb andb].
      apply truthy_str_true in Hne. rewrite Hne. cbn [negb orb].
      rewrite !andb_true_r, String.eqb_eq. reflexivity. }
    split; [| exact Hshown].
    apply Hin' in Hx. destruct Hx as (g & Hg & E).
    intro Hnil. assert (Hgs : In g shown) by (apply Hshown; now split).
    rewrite Hnil in Hgs. destruct Hgs.
Qed.

(** X16.  With no other filter set, a guest is always found by a search
    query that equals, up to letter case, the guest's full name, email
    or profile id, or that equals the telephone as written; and the
    empty query, with no other filter, lists every guest. *)
Theorem search_finds_guest (toLowerCase : string -> string)
    (guests : list GuestsPage.Guest.t) (g : GuestsPage.Guest.t)
    (query : string) :
  In g guests ->
  toLowerCase query = toLowerCase (GuestsPage.Guest.fullName g)
  \/ toLowerCase query = toLowerCase (GuestsPage.Guest.email g)
  \/ query = GuestsPage.Guest.telephone g
  \/ toLowerCase query = toLowerCase (GuestsPage.Guest.profileId g) ->
  In g (GuestsPage.filteredGuests toLowerCase
          (GuestsPage.mkFilters query "" "" "" "") guests)
  /\ GuestsPage.filteredGuests toLowerCase
       (GuestsPage.mkFilters "" "" "" "" "") guests = guests.
Proof.
  intros Hin Hq. split.
  - unfold GuestsPage.filteredGuests. apply filter_In.
    split; [exact Hin |].
    unfold GuestsPage.guestMatches.
    cbn [GuestsPage.searchQuery GuestsPage.nationalityFilter
         GuestsPage.vipFilter GuestsPage.loyaltyFilter
         GuestsPage.genderFilter].
    cbn [truthy_str negb orb andb]. rewrite !andb_true_r.
    destruct Hq as [E | [E | [E | E]]]; rewrite E, String_includes_refl;
      rewrite ?orb_true_r; reflexivity.
  - unfold GuestsPage.filteredGuests. apply filter_true_id.
    intros x _. apply guestMatches_no_filter.
Qed.

Lemma sum_totalStays_bounds (lo hi : Z) (guests : list GuestsPage.Guest.t)
    (acc : Q) :
  (forall g, In g guests ->
     exists k : Z, GuestsPage.Guest.totalStays g = ofZ k /\ lo <= k <= hi) ->
  exists q : Q,
    fold_left (fun sum g => number_add sum (GuestsPage.Guest.totalStays g))
              guests (Num acc) = Num q
    /\ (acc + inject_Z (Z.of_nat (List.length guests)) * inject_Z lo <= q)%Q
    /\ (q <= acc + inject_Z (Z.of_nat (List.length guests)) * inject_Z hi)%Q.
Proof.
  revert acc. induction guests as [| g l IH]; intros acc H.
  - exists acc. cbn [fold_left List.length Z.of_nat].
    change (inject_Z 0) with 0%Q.
    split; [reflexivity | split; lra].
  - destruct (H g (or_introl eq_refl)) as (k & Hk & Hlo & Hhi).
    cbn [fold_left]. rewrite Hk. cbn [number_add ofZ].
    destruct (IH (acc + inject_Z k)%Q) as (q & Hq & H1 & H2).
    { intros g' Hg'. apply H. now right. }
    exists q. split; [exact Hq |].
    cbn [List.length]. rewrite Nat2Z.inj_succ. unfold Z.succ.
    rewrite inject_Z_plus.
    rewrite Zle_Qle in Hlo, Hhi.
    change (inject_Z 1) with 1%Q.
    split; nra.
Qed.

(** X26.  [stats.averageStays] is 0 for an empty guest list (no division
    by zero); for a non-empty list whose stay counts are integers
    between [lo] and [hi], it is an integer between [lo] and [hi]. *)
Theorem averageStays_bounds (guests : list GuestsPage.Guest.t)
    (lo hi : Z) :
  (guests = [] -> GuestsPage.stats_averageStays guests = ofZ 0)
  /\ (guests <> [] ->
      (forall g, In g guests ->
         exists k : Z,
           GuestsPage.Guest.totalStays g = ofZ k /\ lo <= k <= hi) ->
      exists n : Z,
        GuestsPage.stats_averageStays guests = ofZ n /\ lo <= n <= hi).
Proof.
  split; [intros ->; reflexivity |].
  intros Hne Hall.
  destruct (sum_totalStays_bounds lo hi guests (inject_Z 0) Hall)
    as (q & Hq & H1 & H2).
  unfold GuestsPage.stats_averageStays.
  set (len := Z.of_nat (List.length guests)) in *.
  assert (Hlen : 0 < len).
  { unfold len. destruct guests; [congruence | cbn [List.length]; lia]. }
  assert (HlenQ : (0 < inject_Z len)%Q).
  { change 0%Q with (inject_Z 0). now rewrite <- Zlt_Qlt. }
  replace (Nat.ltb 0 (List.length guests)) with true
    by (symmetry; apply Nat.ltb_lt; unfold len in Hlen; lia).
  change (ofZ 0) with (Num (inject_Z 0)). rewrite Hq.
  unfold number_div, ofZ.
  assert (Hnz : Qeq_bool (inject_Z len) 0 = false).
  { destruct (Qeq_bool (inject_Z len) 0) eqn:E; [| reflexivity].
    apply Qeq_bool_iff in E. rewrite E in HlenQ. discriminate. }
  rewrite Hnz. cbn [Math_round].
  exists (Qfloor (q / inject_Z len + (1 # 2))).
  split; [reflexivity |].
  change (inject_Z 0) with 0%Q in H1, H2.
  assert (Hlo : (inject_Z lo <= q / inject_Z len)%Q).
  { apply Qle_shift_div_l; [exact HlenQ | lra]. }
  assert (Hhi : (q / inject_Z len <= inject_Z hi)%Q).
  { apply Qle_shift_div_r; [exact HlenQ | lra]. }
  split.
  - apply Zle_Qfloor. lra.
  - assert (Hlt : (inject_Z (Qfloor (q / inject_Z len + (1 # 2)))
                   < inject_Z (hi + 1))%Q).
    { apply Qle_lt_trans with (y := (q / inject_Z len + (1 # 2))%Q).
      - apply Qfloor_le.
      - rewrite inject_Z_plus. change (inject_Z 1) with 1%Q. lra. }
    rewrite <- Zlt_Qlt in Hlt. lia.
Qed.

Lemma String_ltb_irrefl (s : string) : String.ltb s s = false.
Proof.
  unfold String.ltb.
  pose proof (String.compare_antisym s s) as H.
  destruct (String.compare s s); try reflexivity; discriminate.
Qed.

Lemma String_ltb_total (a b : string) :
  a <> b -> String.ltb a b = negb (String.ltb b a).
Proof.
  intro Hne. unfold String.ltb.
  pose proof (String.compare_antisym a b) as H.
  destruct (String.compare b a) eqn:E; cbn in H; rewrite H; try reflexivity.
  apply String.compare_eq_iff in E. congruence.
Qed.

Lemma number_gt_irrefl (a : number) : number_gt a a = false.
Proof.
  destruct a as [| q]; [reflexivity |].
  apply number_gt_Num_false. apply Qle_refl.
Qed.

Lemma number_gt_total (x y : Q) :
  ~ (x == y)%Q -> number_gt (Num x) (Num y) = negb (number_gt (Num y) (Num x)).
Proof.
  intro Hne.
  destruct (number_gt (Num y) (Num x)) eqn:E; cbn [negb].
  - apply number_gt_Num in E. apply number_gt_Num_false.
    now apply Qlt_le_weak.
  - apply number_gt_Num_false in E. apply number_gt_Num.
    destruct (Qlt_le_dec y x) as [Hlt | Hle]; [exact Hlt |].
    exfalso. apply Hne. now apply Qle_antisym.
Qed.

Section GuestSort.
Context {host : Host}.

(** X27.  The comparator of the guest sort never answers 0: it answers 1
    or -1, and -1 in both directions for a guest against itself, for two
    guests of the same name under the name order, and whenever the key of
    the first guest is NaN (an unparseable last stay).  For two guests
    with different names, or with different finite numeric keys, it is a
    proper order: swapping the guests flips the answer, and the
    descending answer is the ascending one flipped. *)
Theorem compareGuests_answers (sortBy : GuestsPage.SortBy.t)
    (sortOrder : GuestsPage.SortOrder.t) (a b : GuestsPage.Guest.t) :
  let cmp := GuestsPage.compareGuests in
  (cmp sortBy sortOrder a b = 1 \/ cmp sortBy sortOrder a b = -1)
  /\ cmp sortBy sortOrder a a = -1
  /\ (GuestsPage.Guest.fullName a = GuestsPage.Guest.fullName b ->
      cmp GuestsPage.SortBy.name sortOrder a b = -1
      /\ cmp GuestsPage.SortBy.name sortOrder b a = -1)
  /\ (GuestsPage.numericKey sortBy a = Some NaN ->
      cmp sortBy sortOrder a b = -1 /\ cmp sortBy sortOrder b a = -1)
  /\ (GuestsPage.Guest.fullName a <> GuestsPage.Guest.fullName b ->
      cmp GuestsPage.SortBy.name sortOrder a b
      = - cmp GuestsPage.SortBy.name sortOrder b a
      /\ cmp GuestsPage.SortBy.name GuestsPage.SortOrder.desc a b
         = - cmp GuestsPage.SortBy.name GuestsPage.SortOrder.asc a b)
  /\ (forall x y : Q,
        GuestsPage.numericKey sortBy a = Some (Num x) ->
        GuestsPage.numericKey sortBy b = Some (Num y) ->
        ~ (x == y)%Q ->
        cmp sortBy sortOrder a b = - cmp sortBy sortOrder b a
        /\ cmp sortBy GuestsPage.SortOrder.desc a b
           = - cmp sortBy GuestsPage.SortOrder.asc a b).
Proof.
  intro cmp. subst cmp.
  split; [| split; [| split; [| split; [| split]]]].
  - unfold GuestsPage.compareGuests, GuestsPage.sortResult.
    destruct sortBy, sortOrder;
      match goal with
      | |- context [if ?c then _ else _] => destruct c
      end; auto.
  - unfold GuestsPage.compareGuests, GuestsPage.sortResult.
    destruct sortBy, sortOrder;
      rewrite ?String_ltb_irrefl, ?number_gt_irrefl; reflexivity.
  - intro E. unfold GuestsPage.compareGuests, GuestsPage.sortResult.
    rewrite E. destruct sortOrder; rewrite String_ltb_irrefl; auto.
  - intro Hk. unfold GuestsPage.compareGuests, GuestsPage.sortResult.
    destruct sortBy; cbn in Hk; try discriminate;
      injection Hk as Hk; rewrite Hk;
      destruct sortOrder; cbn [number_gt];
      match goal with
      | |- context [number_gt ?u NaN] =>
          replace (number_gt u NaN) with false by (destruct u; reflexivity)
      end; auto.
  - intro Hne. unfold GuestsPage.compareGuests, GuestsPage.sortResult.
    rewrite (String_ltb_total _ _ Hne).
    destruct sortOrder;
      destruct (String.ltb (GuestsPage.Guest.fullName b)
                           (GuestsPage.Guest.fullName a));
      cbn [negb]; auto.
  - intros x y Hx Hy Hne.
    unfold GuestsPage.compareGuests, GuestsPage.sortResult.
    destruct sortBy; cbn in Hx, Hy; try discriminate;
      injection Hx as Hx; injection Hy as Hy; rewrite Hx, Hy;
      rewrite (number_gt_total _ _ Hne);
      destruct sortOrder; destruct (number_gt (Num y) (Num x));
      cbn [negb]; auto.
Qed.

End GuestSort.

(** * The hotels page *)

Lemma Array_includes_In (ids : list string) (id : string) :
  Array_includes ids id = true <-> In id ids.
Proof.
  unfold Array_includes. rewrite existsb_exists. split.
  - intros (x & Hx & E). apply String.eqb_eq in E. now subst.
  - intro H. exists id. split; [exact H | apply String.eqb_refl].
Qed.

Lemma filter_neq_In (ids : list string) (id x : string) :
  In x (filter (fun y => negb (String.eqb y id)) ids)
  <-> In x ids /\ x <> id.
Proof.
  rewrite filter_In, negb_true_iff, String.eqb_neq. reflexivity.
Qed.

Lemma filter_neq_notin (ids : list string) (id : string) :
  ~ In id ids -> filter (fun y => negb (String.eqb y id)) ids = ids.
Proof.
  intro H. apply filter_true_id. intros x Hx.
  apply negb_true_iff, String.eqb_neq. intros ->. contradiction.
Qed.

Section HotelsPage.
Variable toLowerCase : string -> string.
Context {host : Host}.

(** X17.  [handleAddHotel] adds nothing while one of the three inputs is
    empty; with the three inputs filled it appends one hotel carrying
    them at the end of the list, leaves the selection alone and clears
    the inputs, so that submitting again at once adds nothing. *)
Theorem handleAddHotel_once (now today : Z) (st : AddHotel.State) :
  let st' := AddHotel.handleAddHotel now today st in
  (AddHotel.hotelName st = "" \/ AddHotel.hotelCode st = ""
   \/ AddHotel.altHotelName st = "" -> st' = st)
  /\ (AddHotel.hotelName st <> "" -> AddHotel.hotelCode st <> "" ->
      AddHotel.altHotelName st <> "" ->
      exists h : AddHotel.Hotel.t,
        AddHotel.hotels st' = (AddHotel.hotels st ++ [h])%list
        /\ AddHotel.Hotel.name h = AddHotel.hotelName st
        /\ AddHotel.Hotel.code h = AddHotel.hotelCode st
        /\ AddHotel.Hotel.altName h = AddHotel.altHotelName st
        /\ AddHotel.Hotel.id h = Number_toString now
        /\ AddHotel.Hotel.createdAt h
           = before_char "T" (Date_toISOString today)
        /\ AddHotel.hotelName st' = ""
        /\ AddHotel.hotelCode st' = ""
        /\ AddHotel.altHotelName st' = ""
        /\ AddHotel.selectedHotels st' = AddHotel.selectedHotels st)
  /\ (forall now2 today2 : Z,
        AddHotel.handleAddHotel now2 today2 st' = st').
Proof.
  intro st'.
  assert (Hadd : forall n t s,
             AddHotel.handleAddHotel n t s
             = if truthy_str (AddHotel.hotelName s)
                  && truthy_str (AddHotel.hotelCode s)
                  && truthy_str (AddHotel.altHotelName s)
               then AddHotel.mkState "" "" "" (AddHotel.nameFilter s)
                      (AddHotel.codeFilter s) (AddHotel.selectedHotels s)
                      (AddHotel.selectedHotelDetails s)
                      (AddHotel.hotels s
                       ++ [AddHotel.Hotel.mk (Number_toString n)
                             (AddHotel.hotelName s) (AddHotel.hotelCode s)
                             (AddHotel.altHotelName s)
                             (before_char "T" (Date_toISOString t))])%list
               else s) by reflexivity.
  subst st'. rewrite Hadd.
  destruct (truthy_str (AddHotel.hotelName st)
            && truthy_str (AddHotel.hotelCode st)
            && truthy_str (AddHotel.altHotelName st)) eqn:Hok.
  - apply andb_true_iff in Hok. destruct Hok as [Hok E3].
    apply andb_true_iff in Hok. destruct Hok as [E1 E2].
    split; [| split].
    + intros [H | [H | H]]; rewrite H in *; discriminate.
    + intros _ _ _. eexists. repeat split.
    + intros now2 today2. rewrite Hadd. reflexivity.
  - split; [| split].
    + reflexivity.
    + intros H1 H2 H3. apply truthy_str_true in H1, H2, H3.
      rewrite H1, H2, H3 in Hok. discriminate.
    + intros now2 today2. rewrite Hadd, Hok. reflexivity.
Qed.

(** X18.  The handlers of the page keep the selection valid (every
    selected id is the id of a listed hotel): deleting one hotel, the
    selected hotels or all of them, adding a hotel, selecting all, and
    toggling the checkbox of a listed hotel. *)
Theorem selection_valid_preserved (st : AddHotel.State) :
  AddHotel.selection_valid st ->
  (forall id, AddHotel.selection_valid (AddHotel.handleDeleteHotel id st))
  /\ AddHotel.selection_valid (AddHotel.onDetailsDelete st)
  /\ AddHotel.selection_valid (AddHotel.handleDeleteSelected st)
  /\ AddHotel.selection_valid (AddHotel.handleDeleteAll st)
  /\ (forall now today,
        AddHotel.selection_valid (AddHotel.handleAddHotel now today st))
  /\ AddHotel.selection_valid (AddHotel.handleSelectAllHotels toLowerCase st)
  /\ (forall id, In id (map AddHotel.Hotel.id (AddHotel.hotels st)) ->
        AddHotel.selection_valid (AddHotel.handleSelectHotel id st)).
Proof.
  unfold AddHotel.selection_valid. intro Hv.
  assert (Hdel : forall id,
             incl (AddHotel.selectedHotels (AddHotel.handleDeleteHotel id st))
                  (map AddHotel.Hotel.id
                       (AddHotel.hotels (AddHotel.handleDeleteHotel id st)))).
  { intros id x Hx. cbn in Hx |- *.
    apply filter_neq_In in Hx. destruct Hx as [Hx Hne].
    apply Hv, in_map_iff in Hx. destruct Hx as (h & <- & Hh).
    apply in_map, filter_In. split; [exact Hh |].
    now apply negb_true_iff, String.eqb_neq. }
  split; [exact Hdel | split; [| split; [| split; [| split; [| split]]]]].
  - unfold AddHotel.onDetailsDelete.
    destruct (AddHotel.selectedHotelDetails st) as [h |]; [| exact Hv].
    apply Hdel.
  - intros x [].
  - intros x [].
  - intros now today. unfold AddHotel.handleAddHotel.
    destruct (_ && _ && _); [| exact Hv].
    cbn. intros x Hx. rewrite map_app, in_app_iff. left. now apply Hv.
  - unfold AddHotel.handleSelectAllHotels.
    destruct (Nat.eqb _ _); cbn; [intros x [] |].
    intros x Hx. apply in_map_iff in Hx. destruct Hx as (h & <- & Hh).
    apply in_map. unfold AddHotel.filteredHotels in Hh.
    now apply filter_In in Hh.
  - intros id Hid. unfold AddHotel.handleSelectHotel. cbn.
    destruct (Array_includes (AddHotel.selectedHotels st) id).
    + intros x Hx. apply filter_neq_In in Hx. now apply Hv.
    + intros x Hx. apply in_app_iff in Hx.
      destruct Hx as [Hx | [<- | []]]; [now apply Hv | exact Hid].
Qed.

End HotelsPage.

(** X19.  The checkbox of a hotel toggles its selection: after one click
    the id is selected exactly when it was not before, the other ids are
    untouched, and after two clicks the same ids are selected as at the
    start (the very same list when the id was not selected). *)
Theorem handleSelectHotel_toggle (id : string) (st : AddHotel.State) :
  let once := AddHotel.handleSelectHotel id st in
  let twice := AddHotel.handleSelectHotel id once in
  (In id (AddHotel.selectedHotels once)
   <-> ~ In id (AddHotel.selectedHotels st))
  /\ (forall x, x <> id ->
        (In x (AddHotel.selectedHotels once)
         <-> In x (AddHotel.selectedHotels st)))
  /\ (forall x, In x (AddHotel.selectedHotels twice)
                <-> In x (AddHotel.selectedHotels st))
  /\ (~ In id (AddHotel.selectedHotels st) -> twice = st)
  /\ AddHotel.hotels once = AddHotel.hotels st.
Proof.
  intros once twice.
  set (sel := AddHotel.selectedHotels st).
  assert (Honce : AddHotel.selectedHotels once
                  = if Array_includes sel id
                    then filter (fun y => negb (String.eqb y id)) sel
                    else (sel ++ [id])%list) by reflexivity.
  assert (Htwice : AddHotel.selectedHotels twice
                   = if Array_includes (AddHotel.selectedHotels once) id
                     then filter (fun y => negb (String.eqb y id))
                                 (AddHotel.selectedHotels once)
                     else (AddHotel.selectedHotels once ++ [id])%list)
    by reflexivity.
  destruct (Array_includes sel id) eqn:E.
  - assert (Hin : In id sel) by now apply Array_includes_In.
    assert (Hout : Array_includes (AddHotel.selectedHotels once) id = false).
    { destruct (Array_includes (AddHotel.selectedHotels once) id) eqn:E2;
        [| reflexivity].
      apply Array_includes_In in E2. rewrite Honce in E2.
      apply filter_neq_In in E2. tauto. }
    rewrite Hout in Htwice. rewrite Htwice, Honce.
    split; [| split; [| split; [| split]]].
    + rewrite filter_neq_In. tauto.
    + intros x Hx. rewrite filter_neq_In. tauto.
    + intro x. rewrite in_app_iff, filter_neq_In. cbn.
      destruct (string_dec x id) as [-> | Hne]; intuition congruence.
    + intro H. contradiction.
    + reflexivity.
  - assert (Hnot : ~ In id sel).
    { intro H. apply Array_includes_In in H. congruence. }
    assert (Hinc : Array_includes (AddHotel.selectedHotels once) id = true).
    { apply Array_includes_In. rewrite Honce, in_app_iff. right. now left. }
    rewrite Hinc in Htwice.
    assert (Hback : AddHotel.selectedHotels twice = sel).
    { rewrite Htwice, Honce, filter_app, (filter_neq_notin _ _ Hnot).
      cbn. rewrite String.eqb_refl. cbn. apply app_nil_r. }
    rewrite Hback, Honce.
    split; [| split; [| split; [| split]]].
    + rewrite in_app_iff. cbn. tauto.
    + intros x Hx. rewrite in_app_iff. cbn. intuition congruence.
    + tauto.
    + intros _. unfold twice, AddHotel.handleSelectHotel at 1.
      fold once. rewrite Hinc. fold sel in Hback.
      rewrite <- Htwice, Hback.
      unfold sel. destruct st; reflexivity.
    + reflexivity.
Qed.

Lemma filter_comm {A : Type} (f g : A -> bool) (l : list A) :
  filter f (filter g l) = filter g (filter f l).
Proof.
  induction l as [| x l IH]; [reflexivity |].
  cbn [filter]. destruct (f x) eqn:Ef, (g x) eqn:Eg; cbn [filter];
    rewrite ?Ef, ?Eg, IH; reflexivity.
Qed.

Lemma filter_idem {A : Type} (f : A -> bool) (l : list A) :
  filter f (filter f l) = filter f l.
Proof.
  apply filter_true_id. intros x Hx. now apply filter_In in Hx.
Qed.

Section HotelsDelete.
Variable toLowerCase : string -> string.

(** X20.  [handleDeleteHotel id] removes every hotel with that id and no
    other, deselects the id and no other, and takes exactly the rows
    with that id out of the filtered table; deleting again, or deleting
    an id that is neither listed nor selected, changes nothing. *)
Theorem handleDeleteHotel_removes (id : string) (st : AddHotel.State) :
  let st' := AddHotel.handleDeleteHotel id st in
  (forall h, In h (AddHotel.hotels st')
             <-> In h (AddHotel.hotels st) /\ AddHotel.Hotel.id h <> id)
  /\ ~ In id (AddHotel.selectedHotels st')
  /\ (forall x, x <> id ->
        (In x (AddHotel.selectedHotels st')
         <-> In x (AddHotel.selectedHotels st)))
  /\ AddHotel.filteredHotels toLowerCase st'
     = filter (fun h => negb (String.eqb (AddHotel.Hotel.id h) id))
              (AddHotel.filteredHotels toLowerCase st)
  /\ AddHotel.handleDeleteHotel id st' = st'
  /\ (~ In id (map AddHotel.Hotel.id (AddHotel.hotels st)) ->
      ~ In id (AddHotel.selectedHotels st) -> st' = st).
Proof.
  intro st'. subst st'.
  split; [| split; [| split; [| split; [| split]]]].
  - intro h. cbn. rewrite filter_In, negb_true_iff, String.eqb_neq.
    reflexivity.
  - cbn. rewrite filter_neq_In. tauto.
  - intros x Hx. cbn. rewrite filter_neq_In. tauto.
  - unfold AddHotel.filteredHotels. cbn. apply filter_comm.
  - unfold AddHotel.handleDeleteHotel. cbn.
    unfold AddHotel.setSelectedHotels, AddHotel.setHotels. cbn.
    now rewrite !filter_idem.
  - intros Hh Hs. unfold AddHotel.handleDeleteHotel.
    unfold AddHotel.setSelectedHotels, AddHotel.setHotels. cbn.
    rewrite (filter_neq_notin _ _ Hs).
    rewrite (filter_true_id _ (AddHotel.hotels st)).
    + destruct st; reflexivity.
    + intros h Hin. apply negb_true_iff, String.eqb_neq. intro E.
      apply Hh. rewrite <- E. now apply in_map.
Qed.

(** X21.  Select-all and delete-selected.  The header checkbox compares
    only the sizes: when as many ids are selected as rows are listed it
    clears the selection, otherwise it selects exactly the listed rows.
    [handleDeleteSelected] removes the hotels whose id is selected, keeps
    the others and clears the selection; so, after a select-all that
    selected the rows, it leaves no listed row and keeps exactly the
    hotels whose id no listed row carries. *)
Theorem select_all_then_delete (st : AddHotel.State) :
  let listed := AddHotel.filteredHotels toLowerCase st in
  let all := AddHotel.handleSelectAllHotels toLowerCase st in
  (List.length (AddHotel.selectedHotels st) = List.length listed ->
   AddHotel.selectedHotels all = [])
  /\ (List.length (AddHotel.selectedHotels st) <> List.length listed ->
      AddHotel.selectedHotels all = map AddHotel.Hotel.id listed)
  /\ AddHotel.hotels all = AddHotel.hotels st
  /\ (forall h, In h (AddHotel.hotels (AddHotel.handleDeleteSelected st))
                <-> In h (AddHotel.hotels st)
                    /\ ~ In (AddHotel.Hotel.id h)
                            (AddHotel.selectedHotels st))
  /\ AddHotel.selectedHotels (AddHotel.handleDeleteSelected st) = []
  /\ (List.length (AddHotel.selectedHotels st) <> List.length listed ->
      forall h,
        In h (AddHotel.hotels (AddHotel.handleDeleteSelected all))
        <-> In h (AddHotel.hotels st)
            /\ ~ In (AddHotel.Hotel.id h) (map AddHotel.Hotel.id listed)).
Proof.
  intros listed all.
  assert (Hdel : forall s h,
             In h (AddHotel.hotels (AddHotel.handleDeleteSelected s))
             <-> In h (AddHotel.hotels s)
                 /\ ~ In (AddHotel.Hotel.id h) (AddHotel.selectedHotels s)).
  { intros s h. cbn. rewrite filter_In, negb_true_iff.
    rewrite <- Array_includes_In.
    destruct (Array_includes (AddHotel.selectedHotels s)
                             (AddHotel.Hotel.id h));
      intuition congruence. }
  assert (Hsame : AddHotel.hotels all = AddHotel.hotels st).
  { unfold all, AddHotel.handleSelectAllHotels.
    destruct (Nat.eqb _ _); reflexivity. }
  split; [| split; [| split; [| split; [| split]]]].
  - intro H. unfold all, AddHotel.handleSelectAllHotels. fold listed.
    apply Nat.eqb_eq in H. now rewrite H.
  - intro H. unfold all, AddHotel.handleSelectAllHotels. fold listed.
    apply Nat.eqb_neq in H. now rewrite H.
  - exact Hsame.
  - apply Hdel.
  - reflexivity.
  - intros H h. rewrite Hdel, Hsame.
    unfold all, AddHotel.handleSelectAllHotels. fold listed.
    apply Nat.eqb_neq in H. rewrite H. reflexivity.
Qed.

End HotelsDelete.

Lemma find_first {A : Type} (f : A -> bool) (l : list A) (x : A) :
  find f l = Some x ->
  exists before after : list A,
    l = (before ++ x :: after)%list
    /\ f x = true
    /\ forall y, In y before -> f y = false.
Proof.
  induction l as [| z l IH]; [discriminate |].
  cbn [find]. destruct (f z) eqn:E.
  - intro H. injection H as <-. exists [], l.
    split; [reflexivity | split; [exact E | intros y []]].
  - intro H. destruct (IH H) as (before & after & -> & Hx & Hb).
    exists (z :: before), after.
    split; [reflexivity | split; [exact Hx |]].
    intros y [<- | Hy]; [exact E | now apply Hb].
Qed.

(** X25.  The details dialog: [handleViewHotel id] opens it on the first
    hotel with that id (no hotel listed before it has the id) and leaves
    it closed when no hotel has the id; the dialog's Delete button then
    removes every hotel with that id, no other, and closes the dialog. *)
Theorem view_then_delete (id : string) (st : AddHotel.State) :
  let viewed := AddHotel.handleViewHotel id st in
  (AddHotel.selectedHotelDetails viewed = None
   <-> ~ In id (map AddHotel.Hotel.id (AddHotel.hotels st)))
  /\ AddHotel.hotels viewed = AddHotel.hotels st
  /\ (forall h : AddHotel.Hotel.t,
        AddHotel.selectedHotelDetails viewed = Some h ->
        (exists before after : list AddHotel.Hotel.t,
           AddHotel.hotels st = (before ++ h :: after)%list
           /\ forall h', In h' before -> AddHotel.Hotel.id h' <> id)
        /\ In h (AddHotel.hotels st)
        /\ AddHotel.Hotel.id h = id
        /\ AddHotel.selectedHotelDetails (AddHotel.onDetailsDelete viewed)
           = None
        /\ forall h',
             In h' (AddHotel.hotels (AddHotel.onDetailsDelete viewed))
             <-> In h' (AddHotel.hotels st) /\ AddHotel.Hotel.id h' <> id).
Proof.
  intro viewed. subst viewed.
  split; [| split; [reflexivity |]].
  - cbn. rewrite find_none_iff. split.
    + intros H Hin. apply in_map_iff in Hin. destruct Hin as (h & E & Hh).
      specialize (H h Hh). apply String.eqb_neq in H. contradiction.
    + intros H h Hh. apply String.eqb_neq. intro E. apply H.
      rewrite <- E. now apply in_map.
  - intros h Hh. cbn in Hh.
    pose proof (find_some _ _ Hh) as [Hin E]. apply String.eqb_eq in E.
    split; [| split; [exact Hin | split; [exact E |]]].
    + destruct (find_first _ _ _ Hh) as (before & after & Hl & _ & Hb).
      exists before, after. split; [exact Hl |].
      intros h' Hh'. apply String.eqb_neq. now apply Hb.
    + unfold AddHotel.onDetailsDelete.
      cbn [AddHotel.selectedHotelDetails AddHotel.handleViewHotel
           AddHotel.setSelectedHotelDetails].
      rewrite Hh. split; [reflexivity |].
      intro h'. cbn. rewrite E, filter_In, negb_true_iff, String.eqb_neq.
      reflexivity.
Qed.

(** * The reservations page *)

Lemma fold_left_map_ext {A B : Type} (f : B -> A -> B) (g : A -> A)
    (l : list A) (b : B) :
  (forall acc x, f acc (g x) = f acc x) ->
  fold_left f (map g l) b = fold_left f l b.
Proof.
  intro H. revert b. induction l as [| x l IH]; intro b; [reflexivity |].
  cbn. now rewrite H, IH.
Qed.

(** X22.  [handleBulkStatusChange] rewrites only the status of the
    selected bookings: the list keeps its length and the order of its
    ids, a booking whose id is selected gets the new status and is
    otherwise unchanged, every other booking is unchanged, and the
    selection is cleared; so applying a bulk change again at once, with
    any status, changes nothing.  The revenue and pending-payment totals
    are unchanged, also when bookings are cancelled. *)
Theorem handleBulkStatusChange_effect (newStatus : Reservations.Status.t)
    (st : Reservations.State) :
  let st' := Reservations.handleBulkStatusChange newStatus st in
  map Reservations.Booking.id (Reservations.bookings st')
  = map Reservations.Booking.id (Reservations.bookings st)
  /\ (forall (i : nat) (b : Reservations.Booking.t),
        nth_error (Reservations.bookings st) i = Some b ->
        exists b',
          nth_error (Reservations.bookings st') i = Some b'
          /\ Reservations.withStatus b' (Reservations.Booking.status b) = b
          /\ (In (Reservations.Booking.id b)
                 (Reservations.selectedBookings st) ->
              Reservations.Booking.status b' = newStatus)
          /\ (~ In (Reservations.Booking.id b)
                   (Reservations.selectedBookings st) -> b' = b))
  /\ Reservations.selectedBookings st' = []
  /\ (forall s, Reservations.handleBulkStatusChange s st' = st')
  /\ Reservations.stats_total st' = Reservations.stats_total st
  /\ Reservations.stats_totalRevenue st'
     = Reservations.stats_totalRevenue st
  /\ Reservations.stats_pendingPayments st'
     = Reservations.stats_pendingPayments st.
Proof.
  intro st'. subst st'.
  split; [| split; [| split; [| split; [| split; [| split]]]]].
  - cbn. rewrite map_map. apply map_ext. intro b.
    destruct (Array_includes _ _); reflexivity.
  - intros i b Hi. cbn. rewrite nth_error_map, Hi. cbn.
    eexists. split; [reflexivity |].
    destruct (Array_includes (Reservations.selectedBookings st)
                             (Reservations.Booking.id b)) eqn:E.
    + split; [destruct b; reflexivity | split; [reflexivity |]].
      intro H. apply Array_includes_In in E. contradiction.
    + split; [destruct b; reflexivity | split; [| reflexivity]].
      intro H. apply Array_includes_In in H. congruence.
  - reflexivity.
  - intro s. unfold Reservations.handleBulkStatusChange at 1.
    cbn [Reservations.selectedBookings Reservations.bookings].
    unfold Array_includes. cbn [existsb].
    rewrite map_id. reflexivity.
  - unfold Reservations.stats_total. cbn. apply length_map.
  - unfold Reservations.stats_totalRevenue. cbn.
    apply fold_left_map_ext. intros acc b.
    destruct (Array_includes _ _); reflexivity.
  - unfold Reservations.stats_pendingPayments. cbn.
    apply fold_left_map_ext. intros acc b.
    destruct (Array_includes _ _); reflexivity.
Qed.

Lemma Status_eqb_eq (a b : Reservations.Status.t) :
  Reservations.Status_eqb a b = true <-> a = b.
Proof.
  destruct a, b; cbn; split; intro H; congruence.
Qed.

(** X23.  The five status counters always add up to the total, and a
    bulk change to a status can only move bookings into that status: its
    counter does not decrease and the other four do not increase. *)
Theorem status_counters (newStatus s : Reservations.Status.t)
    (st : Reservations.State) :
  let st' := Reservations.handleBulkStatusChange newStatus st in
  (Reservations.stats_count Reservations.Status.pending st
   + Reservations.stats_count Reservations.Status.confirmed st
   + Reservations.stats_count Reservations.Status.checked_in st
   + Reservations.stats_count Reservations.Status.checked_out st
   + Reservations.stats_count Reservations.Status.cancelled st
   = Reservations.stats_total st)%nat
  /\ (Reservations.stats_count newStatus st
      <= Reservations.stats_count newStatus st')%nat
  /\ (s <> newStatus ->
      (Reservations.stats_count s st' <= Reservations.stats_count s st)%nat).
Proof.
  intro st'. subst st'.
  unfold Reservations.stats_count, Reservations.stats_total.
  split; [| split].
  - induction (Reservations.bookings st) as [| b l IH]; [reflexivity |].
    cbn [filter]. destruct (Reservations.Booking.status b);
      cbn [Reservations.Status_eqb List.length]; lia.
  - cbn [Reservations.handleBulkStatusChange Reservations.bookings].
    induction (Reservations.bookings st) as [| b l IH]; [cbn; lia |].
    cbn [map filter].
    destruct (Array_includes _ _).
    + cbn [Reservations.withStatus Reservations.Booking.status].
      replace (Reservations.Status_eqb newStatus newStatus) with true
        by (symmetry; now apply Status_eqb_eq).
      destruct (Reservations.Status_eqb _ _); cbn [List.length]; lia.
    + destruct (Reservations.Status_eqb _ _); cbn [List.length]; lia.
  - intro Hne.
    cbn [Reservations.handleBulkStatusChange Reservations.bookings].
    induction (Reservations.bookings st) as [| b l IH]; [cbn; lia |].
    cbn [map filter].
    destruct (Array_includes _ _).
    + cbn [Reservations.withStatus Reservations.Booking.status].
      replace (Reservations.Status_eqb newStatus s) with false.
      * destruct (Reservations.Status_eqb _ _); cbn [List.length]; lia.
      * symmetry. destruct (Reservations.Status_eqb newStatus s) eqn:E;
          [| reflexivity].
        apply Status_eqb_eq in E. congruence.
    + destruct (Reservations.Status_eqb _ _); cbn [List.length]; lia.
Qed.

(** X24.  The header checkbox followed by a bulk change: checking it
    replaces whatever was selected by the ids of the rows of the current
    page, and the bulk change then gives the new status to every booking
    whose id is on that page and leaves every other booking unchanged; a
    row checked and unchecked again leaves the selection as it was. *)
Theorem select_page_then_bulk (newStatus : Reservations.Status.t)
    (page : list Reservations.Booking.t) (st : Reservations.State) :
  let selected := Reservations.onHeaderCheck true page st in
  let st' := Reservations.handleBulkStatusChange newStatus selected in
  (forall id, In id (Reservations.selectedBookings selected)
              <-> exists b, In b page /\ Reservations.Booking.id b = id)
  /\ (forall (i : nat) (b : Reservations.Booking.t),
        nth_error (Reservations.bookings st) i = Some b ->
        exists b',
          nth_error (Reservations.bookings st') i = Some b'
          /\ (In (Reservations.Booking.id b)
                 (map Reservations.Booking.id page) ->
              b' = Reservations.withStatus b newStatus)
          /\ (~ In (Reservations.Booking.id b)
                   (map Reservations.Booking.id page) -> b' = b))
  /\ (forall id, ~ In id (Reservations.selectedBookings st) ->
        Reservations.onRowCheck false id
          (Reservations.onRowCheck true id st) = st).
Proof.
  intros selected st'. subst selected st'.
  split; [| split].
  - intro id. cbn. rewrite in_map_iff. split.
    + intros (b & E & Hb). now exists b.
    + intros (b & Hb & E). now exists b.
  - intros i b Hi. cbn -[Array_includes].
    rewrite nth_error_map, Hi. cbn -[Array_includes].
    eexists. split; [reflexivity |].
    destruct (Array_includes (map Reservations.Booking.id page)
                             (Reservations.Booking.id b)) eqn:E.
    + split; [reflexivity |].
      intro H. apply Array_includes_In in E. contradiction.
    + split; [| reflexivity].
      intro H. apply Array_includes_In in H. congruence.
  - intros id Hid. unfold Reservations.onRowCheck. cbn.
    rewrite filter_app, (filter_neq_notin _ _ Hid). cbn.
    rewrite String.eqb_refl. cbn. rewrite app_nil_r.
    destruct st; reflexivity.
Qed.

(** * The further properties on concrete inputs *)


(** X2, on the sample page after a confirmation. *)
Lemma filteredBookings_by_status_witness :
  let st := @handleConfirmBooking reference_host sampleClock
              (sampleState [sampleRoom "room-1" 250 5]) in
  let b := @newBooking reference_host sampleClock
             (sampleRoom "room-1" 250 5)
             (sampleState [sampleRoom "room-1" 250 5]) in
  In b (filteredBookings "confirmed" (mkDateRange "" "") st)
  /\ ~ In b (filteredBookings "pending" (mkDateRange "" "") st).
Proof.
  intros st b.
  destruct (filteredBookings_by_status st "confirmed" "pending")
    as (_ & Hin & Hdisj & _).
  assert (Hb : In b (filteredBookings "confirmed" (mkDateRange "" "") st)).
  { apply Hin; [discriminate |]. split; [left |]; reflexivity. }
  split; [exact Hb |].
  intro Hp. apply (Hdisj ltac:(discriminate) ltac:(discriminate)
                         ltac:(discriminate) b).
  split; assumption.
Defined.

(** X3, on a page with two rooms. *)
Lemma onRoomClick_selects_witness :
  let room2 := sampleRoom "room-2" 300 2 in
  let st := sampleState [sampleRoom "room-1" 250 5; room2] in
  In room2 (rooms st)
  /\ isSelectable room2 = true
  /\ getSelectedRoom (onRoomClick room2 st) = Some room2.
Proof.
  intros room2 st.
  assert (Hin : In room2 (rooms st)) by (right; left; reflexivity).
  assert (Hnd : NoDup (map Room.id (rooms st))).
  { repeat constructor; cbn; intuition discriminate. }
  split; [exact Hin | split; [reflexivity |]].
  destruct (onRoomClick_selects st room2 Hin Hnd) as (_ & H & _).
  apply H. reflexivity.
Defined.

(** X4, on the sample page. *)
Lemma onHotelChange_keeps_room_witness :
  let room := sampleRoom "room-1" 250 5 in
  let st := onHotelChange "hotel-2" (sampleState [room]) in
  getAvailableRooms st = []
  /\ exists b : Booking.t,
       bookings (@handleConfirmBooking reference_host sampleClock st) = [b]
       /\ Booking.room b = room.
Proof.
  intros room st. split; [reflexivity |].
  destruct (@onHotelChange_keeps_room reference_host sampleClock
              (sampleState [room]) room "hotel-2" eq_refl)
    as (_ & _ & _ & b & Hb & Hr); [discriminate |].
  exists b. split; assumption.
Defined.


(** X6, on a stay and a longer one around it. *)
Lemma calculateNights_monotone_witness :
  exists n n' : Z,
    numberOfNights
      (@calculateNights reference_host "2024-01-15" "2024-01-20"
         initialState) = ofZ n
    /\ numberOfNights
         (@calculateNights reference_host "2024-01-14" "2024-01-21"
            initialState) = ofZ n'
    /\ n <= n'.
Proof.
  apply (@calculateNights_monotone reference_host
           "2024-01-15" "2024-01-20" "2024-01-14" "2024-01-21"
           (inject_Z 1705276800000) (inject_Z 1705708800000)
           (inject_Z 1705190400000) (inject_Z 1705795200000));
    try reflexivity; discriminate.
Defined.

(** X7, on a stay of five days. *)
Lemma calculateNights_whole_days_witness :
  numberOfNights
    (@calculateNights reference_host "2024-01-15" "2024-01-20"
       (setNumberOfNights (ofZ 0) initialState)) = ofZ 5.
Proof.
  apply (@calculateNights_whole_days reference_host
           "2024-01-15" "2024-01-20"
           (inject_Z 1705276800000) (inject_Z 1705708800000) 5);
    try reflexivity; discriminate.
Defined.

(** X8, on an amount of 1250 and payments of 500 and of 700. *)
Lemma payment_split_bounds_witness :
  exists r r' : Q,
    Payment.remainingBalance
      (paymentData
         (@onAmountPaidTodayChange reference_host "500" initialState))
    = Some (Num r)
    /\ Payment.remainingBalance
         (paymentData
            (@onAmountPaidTodayChange reference_host "700" initialState))
       = Some (Num r')
    /\ (r <= inject_Z 1250)%Q
    /\ (r' <= r)%Q.
Proof.
  destruct (@payment_split_bounds reference_host "500" "700" initialState
              (inject_Z 1250) (inject_Z 500) (inject_Z 700)
              eq_refl eq_refl eq_refl)
    as (r & r' & Hr & Hr' & Hle & _ & _ & Hmono).
  exists r, r'.
  split; [exact Hr | split; [exact Hr' | split]].
  - apply Hle; discriminate.
  - apply Hmono. discriminate.
Defined.


(** X11, on thirty rows and the guests page's twelve per page. *)
Lemma pages_partition_witness :
  0 < GuestsPage.itemsPerPage
  /\ allPages GuestsPage.itemsPerPage (seq 0 30) = [1; 2; 3]
  /\ List.concat
       (map (fun p => paginated GuestsPage.itemsPerPage p (seq 0 30))
            [1; 2; 3])
     = seq 0 30.
Proof.
  split; [reflexivity | split; [reflexivity |]].
  exact (pages_partition GuestsPage.itemsPerPage (seq 0 30) eq_refl).
Defined.

(** X12, on the last of three pages. *)
Lemma page_sizes_witness :
  Z.of_nat (List.length (paginated GuestsPage.itemsPerPage 3 (seq 0 30)))
  = 6
  /\ paginated GuestsPage.itemsPerPage 4 (seq 0 30) = [].
Proof.
  destruct (page_sizes GuestsPage.itemsPerPage (seq 0 30) 3 eq_refl)
    as (_ & _ & Hlast & _).
  destruct (page_sizes GuestsPage.itemsPerPage (seq 0 30) 4 eq_refl)
    as (_ & _ & _ & Hbeyond & _).
  split.
  - destruct Hlast as [Hsize _]; [discriminate | reflexivity |].
    exact Hsize.
  - apply Hbeyond; [reflexivity | discriminate].
Defined.

(** X13, on the second of three pages of the reservations page. *)
Lemma page_navigation_witness :
  paginationShown Reservations.itemsPerPage (seq 0 25) = true
  /\ In 2 (pageButtons Reservations.itemsPerPage (seq 0 25) 2)
  /\ 1 <= onNextClick Reservations.itemsPerPage (seq 0 25) 2 <= 3.
Proof.
  destruct (page_navigation Reservations.itemsPerPage (seq 0 25) 2
              eq_refl eq_refl)
    as (_ & Hnext & _ & _ & _ & Hin & _).
  - split; discriminate.
  - split; [reflexivity | split; [exact Hin | exact Hnext]].
Defined.

(** X14, on the guests of the page. *)
Lemma vip_filter_partition_witness :
  let none := GuestsPage.mkFilters "" "" "" "" "" in
  (List.length
     (GuestsPage.filteredGuests ascii_toLowerCase (withVipFilter none "vip")
        GuestsPage.sampleGuests)
   + List.length
       (GuestsPage.filteredGuests ascii_toLowerCase
          (withVipFilter none "regular") GuestsPage.sampleGuests)
   = 3)%nat
  /\ GuestsPage.filteredGuests ascii_toLowerCase (withVipFilter none "no")
       GuestsPage.sampleGuests
     = GuestsPage.filteredGuests ascii_toLowerCase
         (withVipFilter none "regular") GuestsPage.sampleGuests.
Proof.
  intro none.
  destruct (vip_filter_partition ascii_toLowerCase none
              GuestsPage.sampleGuests) as (_ & _ & Hlen & Hother).
  split.
  - exact Hlen.
  - apply Hother; discriminate.
Defined.

(** X15, on the guests of the page. *)
Lemma nationality_options_witness :
  GuestsPage.nationalityOptions GuestsPage.sampleGuests
  = ["Saudi Arabia"; "United States"; "United Arab Emirates"]
  /\ GuestsPage.filteredGuests ascii_toLowerCase
       (GuestsPage.mkFilters "" "United States" "" "" "")
       GuestsPage.sampleGuests <> [].
Proof.
  split; [reflexivity |].
  destruct (nationality_options ascii_toLowerCase GuestsPage.sampleGuests)
    as (_ & _ & _ & H).
  apply (H "United States"); [| discriminate].
  right. left. reflexivity.
Defined.

(** X16, on a query in capitals. *)
Lemma search_finds_guest_witness :
  exists g : GuestsPage.Guest.t,
    GuestsPage.Guest.fullName g = "Sarah Johnson"
    /\ In g (GuestsPage.filteredGuests ascii_toLowerCase
               (GuestsPage.mkFilters "SARAH JOHNSON" "" "" "" "")
               GuestsPage.sampleGuests).
Proof.
  destruct GuestsPage.sampleGuests as [| g1 [| g2 rest]] eqn:E;
    try discriminate.
  exists g2.
  injection E as E1 E2 E3. subst g1 g2 rest.
  split; [reflexivity |].
  apply (search_finds_guest ascii_toLowerCase).
  - right. left. reflexivity.
  - left. reflexivity.
Defined.

(** X17, on the form filled in for a fifth hotel. *)
Lemma handleAddHotel_once_witness :
  let st :=
    AddHotel.mkState "Desert Inn" "DI005" "Desert Inn (alt)" "" "" [] None
      (AddHotel.hotels AddHotel.initialState) in
  let st' :=
    @AddHotel.handleAddHotel reference_host 1705298400250 1705298400251 st in
  List.length (AddHotel.hotels st') = 5%nat
  /\ @AddHotel.handleAddHotel reference_host 1705298400999 1705298401000 st'
     = st'.
Proof.
  intros st st'.
  destruct (@handleAddHotel_once reference_host 1705298400250 1705298400251
              st) as (_ & Hadd & Hagain).
  split.
  - destruct Hadd as (h & Hh & _); try discriminate.
    fold st' in Hh. rewrite Hh, length_app. reflexivity.
  - apply Hagain.
Defined.

(** X18, on the initial page with the first hotel selected. *)
Lemma selection_valid_preserved_witness :
  let st := AddHotel.setSelectedHotels ["1"] AddHotel.initialState in
  AddHotel.selection_valid st
  /\ AddHotel.selection_valid (AddHotel.handleDeleteHotel "1" st)
  /\ AddHotel.selection_valid (AddHotel.handleSelectHotel "2" st).
Proof.
  intro st.
  assert (Hv : AddHotel.selection_valid st).
  { intros x [<- | []]. left. reflexivity. }
  destruct (@selection_valid_preserved ascii_toLowerCase reference_host st Hv)
    as (Hdel & _ & _ & _ & _ & _ & Hsel).
  split; [exact Hv | split; [apply Hdel |]].
  apply Hsel. right. left. reflexivity.
Defined.

(** X19, on the initial page. *)
Lemma handleSelectHotel_toggle_witness :
  AddHotel.handleSelectHotel "2"
    (AddHotel.handleSelectHotel "2" AddHotel.initialState)
  = AddHotel.initialState.
Proof.
  destruct (handleSelectHotel_toggle "2" AddHotel.initialState)
    as (_ & _ & _ & H & _).
  apply H. intros [].
Defined.

(** X20, on the initial page. *)
Lemma handleDeleteHotel_removes_witness :
  AddHotel.handleDeleteHotel "9" AddHotel.initialState
  = AddHotel.initialState
  /\ List.length
       (AddHotel.hotels
          (AddHotel.handleDeleteHotel "2" AddHotel.initialState)) = 3%nat.
Proof.
  destruct (handleDeleteHotel_removes ascii_toLowerCase "9"
              AddHotel.initialState) as (_ & _ & _ & _ & _ & H).
  split; [| reflexivity].
  apply H.
  - cbn. intuition discriminate.
  - intros [].
Defined.

(** X21, on the initial page with the name filter ["hotel"]. *)
Lemma select_all_then_delete_witness :
  let st :=
    AddHotel.mkState "" "" "" "hotel" "" [] None
      (AddHotel.hotels AddHotel.initialState) in
  let all := AddHotel.handleSelectAllHotels ascii_toLowerCase st in
  AddHotel.selectedHotels all = ["1"; "4"]
  /\ map AddHotel.Hotel.id
         (AddHotel.hotels (AddHotel.handleDeleteSelected all))
     = ["2"; "3"].
Proof.
  intros st all.
  destruct (select_all_then_delete ascii_toLowerCase st)
    as (_ & Hall & _ & _ & _ & _).
  split; [| reflexivity].
  fold all in Hall. rewrite Hall; [reflexivity | discriminate].
Defined.

(** X22, on two reservations with the first one selected. *)
Lemma handleBulkStatusChange_effect_witness :
  let st' :=
    Reservations.handleBulkStatusChange Reservations.Status.cancelled
      sampleReservations in
  map Reservations.Booking.status (Reservations.bookings st')
  = [Reservations.Status.cancelled; Reservations.Status.confirmed]
  /\ exists b',
       nth_error (Reservations.bookings st') 1 = Some b'
       /\ b' = sampleReservation "b2" Reservations.Status.confirmed.
Proof.
  intro st'. split; [reflexivity |].
  destruct (handleBulkStatusChange_effect Reservations.Status.cancelled
              sampleReservations) as (_ & H & _).
  destruct (H 1%nat (sampleReservation "b2" Reservations.Status.confirmed)
              eq_refl) as (b' & Hb' & _ & _ & Hsame).
  exists b'. split; [exact Hb' |].
  apply Hsame. cbn. intuition discriminate.
Defined.

(** X23, on two reservations with the first one selected. *)
Lemma status_counters_witness :
  (Reservations.stats_count Reservations.Status.pending
     (Reservations.handleBulkStatusChange Reservations.Status.cancelled
        sampleReservations)
   <= Reservations.stats_count Reservations.Status.pending
        sampleReservations)%nat.
Proof.
  destruct (status_counters Reservations.Status.cancelled
              Reservations.Status.pending sampleReservations)
    as (_ & _ & H).
  apply H. discriminate.
Defined.

(** X24, on two reservations, the page holding the second one. *)
Lemma select_page_then_bulk_witness :
  let page := [sampleReservation "b2" Reservations.Status.confirmed] in
  map Reservations.Booking.status
      (Reservations.bookings
         (Reservations.handleBulkStatusChange Reservations.Status.cancelled
            (Reservations.onHeaderCheck true page sampleReservations)))
  = [Reservations.Status.pending; Reservations.Status.cancelled]
  /\ Reservations.onRowCheck false "b2"
       (Reservations.onRowCheck true "b2" sampleReservations)
     = sampleReservations.
Proof.
  intro page. split; [reflexivity |].
  destruct (select_page_then_bulk Reservations.Status.cancelled page
              sampleReservations) as (_ & _ & H).
  apply H. cbn. intuition discriminate.
Defined.

(** X25, on a list where two hotels carry the id ["3"]. *)
Lemma view_then_delete_witness :
  let first := AddHotel.Hotel.mk "3" "Mountain Lodge" "ML003" "ML" "2024-01-25" in
  let st :=
    AddHotel.setHotels
      [AddHotel.Hotel.mk "1" "Grand Palace Hotel" "GPH001" "GP" "2024-01-15";
       first;
       AddHotel.Hotel.mk "3" "Mountain Lodge Annex" "ML003B" "MLA"
                         "2024-02-01"]
      AddHotel.initialState in
  AddHotel.selectedHotelDetails (AddHotel.handleViewHotel "3" st)
  = Some first
  /\ AddHotel.selectedHotelDetails
       (AddHotel.onDetailsDelete (AddHotel.handleViewHotel "3" st)) = None
  /\ map AddHotel.Hotel.id
         (AddHotel.hotels
            (AddHotel.onDetailsDelete (AddHotel.handleViewHotel "3" st)))
     = ["1"].
Proof.
  intros first st. split; [reflexivity |].
  destruct (view_then_delete "3" st) as (_ & _ & H).
  destruct (H first eq_refl) as (_ & _ & _ & Hclosed & _).
  split; [exact Hclosed | reflexivity].
Defined.

(** X26, on the guests of the page. *)
Lemma averageStays_bounds_witness :
  GuestsPage.sampleGuests <> []
  /\ exists n : Z,
       GuestsPage.stats_averageStays GuestsPage.sampleGuests = ofZ n
       /\ 6 <= n <= 18.
Proof.
  assert (Hne : GuestsPage.sampleGuests <> []) by discriminate.
  split; [exact Hne |].
  destruct (averageStays_bounds GuestsPage.sampleGuests 6 18) as [_ H].
  apply H; [exact Hne |].
  intros g [<- | [<- | [<- | []]]].
  - exists 12. split; [reflexivity | split; discriminate].
  - exists 6. split; [reflexivity | split; discriminate].
  - exists 18. split; [reflexivity | split; discriminate].
Defined.

(** X27, on the first two guests of the page, by name. *)
Lemma compareGuests_answers_witness :
  exists a b : GuestsPage.Guest.t,
    GuestsPage.Guest.fullName a = "Ahmed Al-Rashid"
    /\ GuestsPage.Guest.fullName b = "Sarah Johnson"
    /\ @GuestsPage.compareGuests reference_host GuestsPage.SortBy.name
         GuestsPage.SortOrder.asc a b
       = - @GuestsPage.compareGuests reference_host GuestsPage.SortBy.name
             GuestsPage.SortOrder.asc b a.
Proof.
  destruct GuestsPage.sampleGuests as [| a [| b rest]] eqn:E;
    try discriminate.
  injection E as Ea Eb _.
  exists a, b.
  assert (Hna : GuestsPage.Guest.fullName a = "Ahmed Al-Rashid")
    by (now rewrite <- Ea).
  assert (Hnb : GuestsPage.Guest.fullName b = "Sarah Johnson")
    by (now rewrite <- Eb).
  split; [exact Hna | split; [exact Hnb |]].
  destruct (@compareGuests_answers reference_host GuestsPage.SortBy.name
              GuestsPage.SortOrder.asc a b) as (_ & _ & _ & _ & H & _).
  apply H. rewrite Hna, Hnb. discriminate.
Defined.
